(** * BaZi (Four Pillars) calculator of [app.py]

    A shallow embedding of the calculation core of [app.py]
    ([get_year_pillar], [get_day_pillar], [get_month_pillar],
    [get_hour_pillar], [calculate_bazi]) together with the part of Python's
    [datetime] module the core relies on: field validation in the
    constructor, proleptic Gregorian ordinals and the ordering of naive
    date-times.

    Python integers are unbounded, so indices are [Z]; Python's [%] and [//]
    with a positive right operand are the floored [Z.modulo] and [Z.div].
    A call that can raise returns a [result]: [Ok] with the value, or [Raise]
    with the exception. *)

From Stdlib Require Import ZArith List Lia Bool.
From stdpp Require Import base option list gmap strings fin_maps.

Import ListNotations.
Local Open Scope Z_scope.

(** ** Exceptions *)

Inductive exn : Type :=
| ValueError
| IndexError
| KeyError.

Inductive result (A : Type) : Type :=
| Ok (a : A)
| Raise (e : exn).

Arguments Ok {A} a.
Arguments Raise {A} e.

#[export] Instance result_ret : MRet result := fun A a => Ok a.

#[export] Instance result_bind : MBind result := fun A B k c =>
  match c with
  | Ok a => k a
  | Raise e => Raise e
  end.

Fixpoint mapM {A B : Type} (f : A → result B) (l : list A) : result (list B) :=
  match l with
  | [] => mret []
  | a :: l' => b ← f a; bs ← mapM f l'; mret (b :: bs)
  end.

(** Run a bind whose first computation has returned. *)
Ltac result_step :=
  change (Ok ?a ≫= ?k) with (k a); cbv beta iota.

(** [l[i]] on a Python list: negative indices count from the end, anything
    outside [-len, len) raises [IndexError]. *)
Definition py_index {A : Type} (l : list A) (i : Z) : result A :=
  let n := Z.of_nat (length l) in
  let j := if i <? 0 then i + n else i in
  if (0 <=? j) && (j <? n) then
    match l !! Z.to_nat j with
    | Some a => Ok a
    | None => Raise IndexError
    end
  else Raise IndexError.

(** [enumerate(l)] *)
Fixpoint enumerate_from {A : Type} (i : Z) (l : list A) : list (Z * A) :=
  match l with
  | [] => []
  | a :: l' => (i, a) :: enumerate_from (i + 1) l'
  end.

Definition enumerate {A : Type} (l : list A) : list (Z * A) := enumerate_from 0 l.

(** [range(n)] *)
Definition range (n : Z) : list Z := map Z.of_nat (seq 0 (Z.to_nat n)).

(** ** The [datetime] module *)

Definition MINYEAR : Z := 1.
Definition MAXYEAR : Z := 9999.

(** A naive [datetime]; [date()] keeps the first three fields. *)
Record datetime : Type := mk_datetime {
  year : Z;
  month : Z;
  day : Z;
  hour : Z;
  minute : Z;
  second : Z;
  microsecond : Z
}.

Definition _is_leap (y : Z) : bool :=
  (y mod 4 =? 0) && (negb (y mod 100 =? 0) || (y mod 400 =? 0)).

Definition _days_before_year (y : Z) : Z :=
  let y' := y - 1 in
  y' * 365 + y' / 4 - y' / 100 + y' / 400.

Definition _DAYS_IN_MONTH : list Z :=
  [-1; 31; 28; 31; 30; 31; 30; 31; 31; 30; 31; 30; 31].

Definition _DAYS_BEFORE_MONTH : list Z :=
  [-1; 0; 31; 59; 90; 120; 151; 181; 212; 243; 273; 304; 334].

Definition _days_in_month (y m : Z) : Z :=
  if (m =? 2) && _is_leap y then 29
  else nth (Z.to_nat m) _DAYS_IN_MONTH 0.

Definition _days_before_month (y m : Z) : Z :=
  nth (Z.to_nat m) _DAYS_BEFORE_MONTH 0
  + (if (2 <? m) && _is_leap y then 1 else 0).

Definition _ymd2ord (y m d : Z) : Z :=
  _days_before_year y + _days_before_month y m + d.

Definition toordinal (dt : datetime) : Z :=
  _ymd2ord (year dt) (month dt) (day dt).

(** [_check_date_fields]: the test every constructor call goes through. *)
Definition check_date_fields (y m d : Z) : bool :=
  (MINYEAR <=? y) && (y <=? MAXYEAR)
  && (1 <=? m) && (m <=? 12)
  && (1 <=? d) && (d <=? _days_in_month y m).

Definition check_time_fields (h mi s us : Z) : bool :=
  (0 <=? h) && (h <=? 23) && (0 <=? mi) && (mi <=? 59)
  && (0 <=? s) && (s <=? 59) && (0 <=? us) && (us <=? 999999).

(** The values a Python [datetime] object can hold. *)
Definition valid_datetime (dt : datetime) : bool :=
  check_date_fields (year dt) (month dt) (day dt)
  && check_time_fields (hour dt) (minute dt) (second dt) (microsecond dt).

(** [datetime(y, m, d)] and [date(y, m, d)]: midnight of the given day, or
    [ValueError]. *)
Definition new_datetime (y m d : Z) : result datetime :=
  if check_date_fields y m d then Ok (mk_datetime y m d 0 0 0 0)
  else Raise ValueError.

(** Naive date-times are ordered as the tuples of their fields. *)
Definition fields (dt : datetime) : list Z :=
  [year dt; month dt; day dt; hour dt; minute dt; second dt; microsecond dt].

Fixpoint lex_cmp (a b : list Z) : comparison :=
  match a, b with
  | [], [] => Eq
  | [], _ :: _ => Lt
  | _ :: _, [] => Gt
  | x :: a', y :: b' =>
      match x ?= y with
      | Eq => lex_cmp a' b'
      | c => c
      end
  end.

Definition dt_cmp (a b : datetime) : comparison := lex_cmp (fields a) (fields b).

Definition dt_lt (a b : datetime) : bool :=
  match dt_cmp a b with Lt => true | _ => false end.

Definition dt_le (a b : datetime) : bool :=
  match dt_cmp a b with Gt => false | _ => true end.

(** [(a.date() - b.date()).days] *)
Definition days_between (a b : datetime) : Z := toordinal a - toordinal b.

(** ** The cyclic tables *)

(** One entry of [HEAVENLY_STEMS] or [EARTHLY_BRANCHES]. *)
Record symbol : Type := mk_symbol {
  name : string;
  element : string;
  yin_yang : string
}.

Definition HEAVENLY_STEMS : list symbol := [
  mk_symbol "甲" "木" "阳";
  mk_symbol "乙" "木" "阴";
  mk_symbol "丙" "火" "阳";
  mk_symbol "丁" "火" "阴";
  mk_symbol "戊" "土" "阳";
  mk_symbol "己" "土" "阴";
  mk_symbol "庚" "金" "阳";
  mk_symbol "辛" "金" "阴";
  mk_symbol "壬" "水" "阳";
  mk_symbol "癸" "水" "阴"
].

Definition EARTHLY_BRANCHES : list symbol := [
  mk_symbol "子" "水" "阳";
  mk_symbol "丑" "土" "阴";
  mk_symbol "寅" "木" "阳";
  mk_symbol "卯" "木" "阴";
  mk_symbol "辰" "土" "阳";
  mk_symbol "巳" "火" "阴";
  mk_symbol "午" "火" "阳";
  mk_symbol "未" "土" "阴";
  mk_symbol "申" "金" "阳";
  mk_symbol "酉" "金" "阴";
  mk_symbol "戌" "土" "阳";
  mk_symbol "亥" "水" "阴"
].

(** ** Year pillar *)

(** A calendar date [yyyy-mm-dd]. *)
Record civil_date : Type := mk_civil_date {
  cd_year : Z;
  cd_month : Z;
  cd_day : Z
}.

(** Modelled from the spec: the data file [data/lunar_new_year.json] is not
    part of the sources.  Following the data model of the specification, the
    decoded table maps a calendar year to the civil date of that year's lunar
    new year; [datetime.strptime(lny_str, "%Y-%m-%d")] turns such an entry
    into midnight of that date. *)
Definition strptime_ymd (d : civil_date) : datetime :=
  mk_datetime (cd_year d) (cd_month d) (cd_day d) 0 0 0 0.

(** The [try]/[except FileNotFoundError] around the load: [None] stands for
    a missing file. *)
Definition load_lunar_new_year (file : option (gmap Z civil_date))
  : gmap Z civil_date :=
  match file with
  | Some tbl => tbl
  | None => ∅
  end.

Definition get_year_pillar (file : option (gmap Z civil_date)) (dt : datetime)
  : Z * Z :=
  let lunar_new_year := load_lunar_new_year file in
  let year0 := year dt in
  let year1 :=
    match lunar_new_year !! year0 with
    | Some lny_str =>
        let lny := strptime_ymd lny_str in
        if dt_lt dt lny then year0 - 1 else year0
    | None =>
        if (month dt <? 2) || ((month dt =? 2) && (day dt <? 4))
        then year0 - 1 else year0
    end in
  let offset := year1 - 1984 in
  let stem_index := (offset mod 10) mod 10 in
  let branch_index := (offset mod 12) mod 12 in
  (stem_index, branch_index).

(** ** Day pillar *)

Definition ref_date : datetime := mk_datetime 1900 1 1 0 0 0 0.

Definition get_day_pillar (dt : datetime) : Z * Z :=
  let delta_days := days_between dt ref_date in
  let stem_index := (6 + delta_days) mod 10 in
  let branch_index := (0 + delta_days) mod 12 in
  (stem_index, branch_index).

(** ** Month pillar *)

Definition boundaries : list (Z * Z) :=
  [(2, 4); (3, 6); (4, 5); (5, 5); (6, 6); (7, 7);
   (8, 8); (9, 8); (10, 8); (11, 7); (12, 7); (1, 6)].

(** The loop that fills [boundary_dates]. *)
Definition build_boundary_dates (current_year : Z) : result (list datetime) :=
  mapM (fun '(i, (m, d)) =>
          let y := if i <? 11 then current_year else current_year + 1 in
          new_datetime y m d)
       (enumerate boundaries).

(** The [for i in range(len(boundary_dates) - 1)] loop: [Some b] when the
    loop left through [break] with [month_branch_index = b], [None] when it
    ran to its end.  The chained comparison reads [boundary_dates[i + 1]]
    only when its first half holds. *)
Fixpoint search_boundaries (boundary_dates : list datetime) (dt : datetime)
    (indices : list Z) : result (option Z) :=
  match indices with
  | [] => Ok None
  | i :: rest =>
      lo ← py_index boundary_dates i;
      if dt_le lo dt then
        hi ← py_index boundary_dates (i + 1);
        if dt_lt dt hi then Ok (Some ((2 + i) mod 12))
        else search_boundaries boundary_dates dt rest
      else search_boundaries boundary_dates dt rest
  end.

Definition five_tigers_start : gmap Z Z :=
  list_to_map [(0, 2); (5, 2); (1, 4); (6, 4); (2, 6); (7, 6);
               (3, 8); (8, 8); (4, 0); (9, 0)].

Definition month_branch (dt : datetime) : result Z :=
  boundary_dates ← build_boundary_dates (year dt);
  first ← py_index boundary_dates 0;
  if dt_lt dt first then Ok 1
  else
    found ← search_boundaries boundary_dates dt
              (range (Z.of_nat (length boundary_dates) - 1));
    match found with
    | Some b => Ok b
    | None => Ok 1
    end.

(** The Five Tigers rule that ends [get_month_pillar]. *)
Definition month_stem (year_stem month_branch_index : Z) : Z :=
  let start_stem := default 2 (five_tigers_start !! year_stem) in
  let relative_idx := (month_branch_index - 2) mod 12 in
  (start_stem + relative_idx) mod 10.

Definition get_month_pillar (year_stem year_branch : Z) (dt : datetime)
  : result (Z * Z) :=
  month_branch_index ← month_branch dt;
  let stem_index := month_stem year_stem month_branch_index in
  Ok (stem_index, month_branch_index).

(** ** Hour pillar *)

Definition get_hour_pillar (day_stem : Z) (dt : datetime) : Z * Z :=
  let hour := hour dt in
  let branch_index := ((hour + 1) / 2) mod 12 in
  let stem_index := (day_stem * 2 + branch_index) mod 10 in
  (stem_index, branch_index).

(** ** Aggregation *)

Record pillar : Type := mk_pillar {
  pillar_label : string;
  stem_index : Z;
  branch_index : Z;
  stem : string;
  branch : string
}.

Record bazi : Type := mk_bazi {
  pillars : list pillar;
  elements_count : gmap string Z;
  yin : Z;
  yang : Z
}.

Definition make_pillar (label : string) (s b : Z) : result pillar :=
  st ← py_index HEAVENLY_STEMS s;
  br ← py_index EARTHLY_BRANCHES b;
  Ok (mk_pillar label s b (name st) (name br)).

(** [d[k] += 1] on a dict: [KeyError] when [k] is not a key. *)
Definition dict_incr (d : gmap string Z) (k : string) : result (gmap string Z) :=
  match d !! k with
  | Some v => Ok (<[k := v + 1]> d)
  | None => Raise KeyError
  end.

Definition tally_state : Type := (gmap string Z * Z * Z)%type.

(** One turn of the [for p in pillars] loop. *)
Definition tally_step (st : tally_state) (p : pillar) : result tally_state :=
  let '(ec, yin_count, yang_count) := st in
  s ← py_index HEAVENLY_STEMS (stem_index p);
  b ← py_index EARTHLY_BRANCHES (branch_index p);
  ec ← dict_incr ec (element s);
  ec ← dict_incr ec (element b);
  let yin_count := yin_count + (if String.eqb (yin_yang s) "阴" then 1 else 0) in
  let yin_count := yin_count + (if String.eqb (yin_yang b) "阴" then 1 else 0) in
  let yang_count := yang_count + (if String.eqb (yin_yang s) "阳" then 1 else 0) in
  let yang_count := yang_count + (if String.eqb (yin_yang b) "阳" then 1 else 0) in
  Ok (ec, yin_count, yang_count).

Fixpoint tally (st : tally_state) (ps : list pillar) : result tally_state :=
  match ps with
  | [] => Ok st
  | p :: rest => st' ← tally_step st p; tally st' rest
  end.

Definition initial_elements_count : gmap string Z :=
  list_to_map [("木", 0); ("火", 0); ("土", 0); ("金", 0); ("水", 0)]%string.

Definition calculate_bazi (file : option (gmap Z civil_date)) (dt : datetime)
  : result bazi :=
  let '(y_stem, y_branch) := get_year_pillar file dt in
  let '(d_stem, d_branch) := get_day_pillar dt in
  '(m_stem, m_branch) ← get_month_pillar y_stem y_branch dt;
  let '(h_stem, h_branch) := get_hour_pillar d_stem dt in
  p_year ← make_pillar "年柱" y_stem y_branch;
  p_month ← make_pillar "月柱" m_stem m_branch;
  p_day ← make_pillar "日柱" d_stem d_branch;
  p_hour ← make_pillar "时柱" h_stem h_branch;
  let pillars := [p_year; p_month; p_day; p_hour] in
  '(ec, yin_count, yang_count) ← tally (initial_elements_count, 0, 0) pillars;
  Ok (mk_bazi pillars ec yin_count yang_count).

(** Sum of the values of a dict. *)
Definition sum_values (d : gmap string Z) : Z :=
  map_fold (fun _ v acc => v + acc) 0 d.

(** ** Statements of the specification, in its own words *)

(** The calendar day after [d], time of day unchanged. *)
Definition next_day (d : datetime) : datetime :=
  let '(mk_datetime y m dd h mi s us) := d in
  if dd <? _days_in_month y m then mk_datetime y m (dd + 1) h mi s us
  else if m <? 12 then mk_datetime y (m + 1) 1 h mi s us
  else mk_datetime (y + 1) 1 1 h mi s us.

(** The date [n] calendar days after [d]. *)
Definition add_days (n : nat) (d : datetime) : datetime := Nat.iter n next_day d.

(** The [i]-th of the twelve solar-term boundaries of calendar year [y]: the
    fixed month and day, in year [y] for the first eleven and in the following
    January for the last. *)
Definition boundary (y : Z) (i : nat) : datetime :=
  let '(m, d) := nth i boundaries (0, 0) in
  mk_datetime (if (i <? 11)%nat then y else y + 1) m d 0 0 0 0.

(** The boundary of calendar year [y]: the table's lunar new year when the
    table has an entry for [y], 4 February otherwise. *)
Definition year_boundary (tbl : gmap Z civil_date) (y : Z) : datetime :=
  match tbl !! y with
  | Some lny => strptime_ymd lny
  | None => mk_datetime y 2 4 0 0 0 0
  end.

(** The BaZi year of a date-time. *)
Definition bazi_year (file : option (gmap Z civil_date)) (dt : datetime) : Z :=
  if dt_lt dt (year_boundary (load_lunar_new_year file) (year dt))
  then year dt - 1 else year dt.

(** The Five Tigers table as the specification lists it. *)
Definition five_tigers_spec (year_stem : Z) : Z :=
  if (year_stem =? 0) || (year_stem =? 5) then 2
  else if (year_stem =? 1) || (year_stem =? 6) then 4
  else if (year_stem =? 2) || (year_stem =? 7) then 6
  else if (year_stem =? 3) || (year_stem =? 8) then 8
  else if (year_stem =? 4) || (year_stem =? 9) then 0
  else 2.

(** Month and day form a date of the calendar (the year may be any). *)
Definition valid_month_day (d : datetime) : Prop :=
  1 <= month d <= 12 ∧ 1 <= day d <= _days_in_month (year d) (month d).

(** The yin and yang units one table entry adds to the tally. *)
Definition polarity_units (s : symbol) : Z * Z :=
  (if String.eqb (yin_yang s) "阴" then 1 else 0,
   if String.eqb (yin_yang s) "阳" then 1 else 0).

(** What the tally needs of a table entry: its element is a key of
    [elements_count], and it is either yin or yang. *)
Definition symbol_ok (s : symbol) : Prop :=
  element s ∈ dom initial_elements_count
  ∧ (polarity_units s).1 + (polarity_units s).2 = 1.

(** A (stem, branch) pair of positions in the two tables. *)
Definition in_tables (sb : Z * Z) : Prop := 0 <= sb.1 <= 9 ∧ 0 <= sb.2 <= 11.

(** The (stem, branch) pairs of a result, in the order year, month, day,
    hour. *)
Definition pillar_indices (r : bazi) : list (Z * Z) :=
  map (fun p => (stem_index p, branch_index p)) (pillars r).

(** The two table entries a pillar points at, as the tally loop reads them. *)
Definition pillar_symbols (p : pillar) : list symbol :=
  match py_index HEAVENLY_STEMS (stem_index p),
        py_index EARTHLY_BRANCHES (branch_index p) with
  | Ok s, Ok b => [s; b]
  | _, _ => []
  end.

(** The eight stems and branches of a result. *)
Definition result_symbols (r : bazi) : list symbol :=
  concat (map pillar_symbols (pillars r)).

(** How many entries of [l] pass the test [f]. *)
Definition count_if {A : Type} (f : A → bool) (l : list A) : Z :=
  Z.of_nat (length (List.filter f l)).

(** ** The order on date-times *)

Lemma lex_cmp_refl a : lex_cmp a a = Eq.
Proof.
  induction a as [|x a IH]; simpl; [done|].
  by rewrite Z.compare_refl.
Qed.

Lemma lex_cmp_antisym a : ∀ b, lex_cmp b a = CompOpp (lex_cmp a b).
Proof.
  induction a as [|x a IH]; intros [|y b]; simpl; try done.
  rewrite (Z.compare_antisym x y).
  destruct (x ?= y); simpl; auto.
Qed.

Lemma lex_cmp_eq a : ∀ b, lex_cmp a b = Eq → a = b.
Proof.
  induction a as [|x a IH]; intros [|y b]; simpl; try done.
  destruct (x ?= y) eqn:E; try done.
  apply Z.compare_eq in E. intros H%IH. congruence.
Qed.

Lemma lex_cmp_lt_trans a : ∀ b c,
  lex_cmp a b = Lt → lex_cmp b c = Lt → lex_cmp a c = Lt.
Proof.
  induction a as [|x a IH]; intros [|y b] [|z c]; simpl; try done.
  destruct (x ?= y) eqn:Exy; try done;
    destruct (y ?= z) eqn:Eyz; try done; intros Hab Hbc.
  - apply Z.compare_eq in Exy, Eyz. subst. rewrite Z.compare_refl. eauto.
  - apply Z.compare_eq in Exy. subst. by rewrite Eyz.
  - apply Z.compare_eq in Eyz. subst. by rewrite Exy.
  - rewrite Z.compare_lt_iff in Exy, Eyz.
    assert ((x ?= z) = Lt) as -> by (apply Z.compare_lt_iff; lia). done.
Qed.

Lemma dt_le_negb_lt a b : dt_le a b = negb (dt_lt b a).
Proof.
  unfold dt_le, dt_lt, dt_cmp.
  rewrite (lex_cmp_antisym (fields a) (fields b)).
  by destruct (lex_cmp (fields a) (fields b)).
Qed.

Lemma dt_lt_irrefl a : dt_lt a a = false.
Proof. unfold dt_lt, dt_cmp. by rewrite lex_cmp_refl. Qed.

Lemma dt_lt_trans a b c : dt_lt a b = true → dt_lt b c = true → dt_lt a c = true.
Proof.
  unfold dt_lt, dt_cmp.
  destruct (lex_cmp (fields a) (fields b)) eqn:Hab; try done.
  destruct (lex_cmp (fields b) (fields c)) eqn:Hbc; try done.
  by rewrite (lex_cmp_lt_trans _ _ _ Hab Hbc).
Qed.

Lemma dt_le_lt_trans a b c : dt_le a b = true → dt_lt b c = true → dt_lt a c = true.
Proof.
  unfold dt_le, dt_lt, dt_cmp.
  destruct (lex_cmp (fields a) (fields b)) eqn:Hab; try done.
  - apply lex_cmp_eq in Hab. by rewrite Hab.
  - destruct (lex_cmp (fields b) (fields c)) eqn:Hbc; try done.
    by rewrite (lex_cmp_lt_trans _ _ _ Hab Hbc).
Qed.

Lemma dt_lt_le a b : dt_lt a b = true → dt_le a b = true.
Proof. unfold dt_le, dt_lt. by destruct (dt_cmp a b). Qed.

Lemma dt_le_trans a b c : dt_le a b = true → dt_le b c = true → dt_le a c = true.
Proof.
  intros Hab Hbc. rewrite dt_le_negb_lt. apply negb_true_iff.
  destruct (dt_lt c a) eqn:Hca; [|done].
  rewrite dt_le_negb_lt in Hab. apply negb_true_iff in Hab.
  by rewrite (dt_le_lt_trans _ _ _ Hbc Hca) in Hab.
Qed.

(** ** Gregorian day counting *)

Lemma valid_datetime_fields dt :
  valid_datetime dt = true →
  (1 <= year dt <= 9999) ∧ valid_month_day dt
  ∧ 0 <= hour dt <= 23 ∧ 0 <= minute dt <= 59
  ∧ 0 <= second dt <= 59 ∧ 0 <= microsecond dt <= 999999.
Proof.
  unfold valid_datetime, check_date_fields, check_time_fields, valid_month_day,
    MINYEAR, MAXYEAR.
  rewrite !andb_true_iff, !Z.leb_le. lia.
Qed.

Lemma is_leap_cases y :
  (_is_leap y = true ∧ y mod 4 = 0 ∧ (y mod 100 ≠ 0 ∨ y mod 400 = 0))
  ∨ (_is_leap y = false ∧ (y mod 4 ≠ 0 ∨ (y mod 100 = 0 ∧ y mod 400 ≠ 0))).
Proof.
  unfold _is_leap.
  destruct (Z.eqb_spec (y mod 4) 0), (Z.eqb_spec (y mod 100) 0),
    (Z.eqb_spec (y mod 400) 0); simpl; lia.
Qed.

Lemma days_before_year_succ y :
  _days_before_year (y + 1)
  = _days_before_year y + 365 + (if _is_leap y then 1 else 0).
Proof.
  unfold _days_before_year.
  replace (y + 1 - 1) with y by lia.
  destruct (is_leap_cases y) as [(-> & H4 & H100)|(-> & H)];
    Z.div_mod_to_equations; lia.
Qed.

Lemma month_cases m :
  1 <= m <= 12 →
  m = 1 ∨ m = 2 ∨ m = 3 ∨ m = 4 ∨ m = 5 ∨ m = 6
  ∨ m = 7 ∨ m = 8 ∨ m = 9 ∨ m = 10 ∨ m = 11 ∨ m = 12.
Proof. lia. Qed.

Lemma toordinal_next_day d :
  valid_month_day d → toordinal (next_day d) = toordinal d + 1.
Proof.
  destruct d as [y m dd h mi s us]. unfold valid_month_day, toordinal. simpl.
  intros [Hm Hd].
  destruct (Z.ltb_spec dd (_days_in_month y m)); simpl; [unfold _ymd2ord; lia|].
  assert (dd = _days_in_month y m) as -> by lia.
  destruct (Z.ltb_spec m 12); simpl.
  - unfold _ymd2ord, _days_before_month, _days_in_month.
    destruct (month_cases m Hm) as [->|[->|[->|[->|[->|[->|[->|[->|[->|[->|[->| ->]]]]]]]]]]];
      simpl; destruct (_is_leap y); simpl; lia.
  - assert (m = 12) as -> by lia.
    unfold _ymd2ord, _days_before_month, _days_in_month. simpl.
    rewrite days_before_year_succ. destruct (_is_leap y); simpl; lia.
Qed.

Lemma next_day_valid d : valid_month_day d → valid_month_day (next_day d).
Proof.
  destruct d as [y m dd h mi s us]. unfold valid_month_day. simpl.
  intros [Hm Hd].
  destruct (Z.ltb_spec dd (_days_in_month y m)); simpl; [lia|].
  destruct (Z.ltb_spec m 12); simpl.
  - split; [lia|]. unfold _days_in_month.
    destruct (month_cases m Hm) as [->|[->|[->|[->|[->|[->|[->|[->|[->|[->|[->| ->]]]]]]]]]]];
      simpl; destruct (_is_leap y); simpl; lia.
  - unfold _days_in_month. simpl. lia.
Qed.

Lemma add_days_valid n d : valid_month_day d → valid_month_day (add_days n d).
Proof.
  intros Hd. induction n as [|n IH]; simpl; [done|]. by apply next_day_valid.
Qed.

Lemma toordinal_add_days n d :
  valid_month_day d → toordinal (add_days n d) = toordinal d + Z.of_nat n.
Proof.
  intros Hd. induction n as [|n IH]; [simpl; lia|].
  change (add_days (S n) d) with (next_day (add_days n d)).
  rewrite toordinal_next_day by (by apply add_days_valid). lia.
Qed.

(** Dates before 1900 have a negative distance to the reference date. *)
Lemma days_between_before_reference dt :
  valid_month_day dt → year dt < 1900 → days_between dt ref_date < 0.
Proof.
  destruct dt as [y m d h mi s us]. unfold valid_month_day. simpl.
  intros [Hm Hd] Hy.
  assert (_days_before_month y m + d <= 365 + (if _is_leap y then 1 else 0)) as Hyear.
  { revert Hd. unfold _days_before_month, _days_in_month.
    destruct (month_cases m Hm) as [->|[->|[->|[->|[->|[->|[->|[->|[->|[->|[->| ->]]]]]]]]]]];
      simpl; destruct (_is_leap y); simpl; lia. }
  pose proof (days_before_year_succ y) as Hsucc.
  assert (_days_before_year (y + 1) <= 693595) as Hmono.
  { clear - Hy. unfold _days_before_year. cbv zeta.
    replace (y + 1 - 1) with y by lia.
    assert (y / 4 < 475) by (apply Z.div_lt_upper_bound; lia).
    assert (y / 400 < 5) by (apply Z.div_lt_upper_bound; lia).
    Z.div_mod_to_equations. lia. }
  unfold days_between, toordinal. cbn [year month day ref_date].
  change (_ymd2ord 1900 1 1) with 693596. unfold _ymd2ord.
  destruct (_is_leap y); lia.
Qed.

(** ** The month branch search *)

Lemma py_index_nat {A} (l : list A) (i : nat) a :
  l !! i = Some a → py_index l (Z.of_nat i) = Ok a.
Proof.
  intros H. pose proof (lookup_lt_Some _ _ _ H) as Hlt. unfold py_index.
  destruct (Z.ltb_spec (Z.of_nat i) 0); [lia|].
  destruct (Z.leb_spec 0 (Z.of_nat i)); [|lia].
  destruct (Z.ltb_spec (Z.of_nat i) (Z.of_nat (length l))); [|lia].
  simpl. by rewrite Nat2Z.id, H.
Qed.

Lemma py_index_nat_succ {A} (l : list A) (i : nat) a :
  l !! S i = Some a → py_index l (Z.of_nat i + 1) = Ok a.
Proof.
  intros H. replace (Z.of_nat i + 1) with (Z.of_nat (S i)) by lia.
  by apply py_index_nat.
Qed.

Lemma py_index_inv {A} (l : list A) i a :
  py_index l i = Ok a → a ∈ l.
Proof.
  unfold py_index.
  destruct (_ && _); [|done].
  destruct (l !! _) eqn:E; [|done].
  intros [= <-]. by eapply list_elem_of_lookup_2.
Qed.

Lemma days_in_month_ge_28 y m : 1 <= m <= 12 → 28 <= _days_in_month y m.
Proof.
  intros Hm. unfold _days_in_month.
  destruct (month_cases m Hm) as [->|[->|[->|[->|[->|[->|[->|[->|[->|[->|[->| ->]]]]]]]]]]];
    simpl; destruct (_is_leap y); simpl; lia.
Qed.

Lemma new_datetime_ok y m d :
  1 <= y <= 9999 → 1 <= m <= 12 → 1 <= d <= 28 →
  new_datetime y m d = Ok (mk_datetime y m d 0 0 0 0).
Proof.
  intros Hy Hm Hd. pose proof (days_in_month_ge_28 y m Hm).
  unfold new_datetime, check_date_fields, MINYEAR, MAXYEAR.
  destruct (Z.leb_spec 1 y), (Z.leb_spec y 9999), (Z.leb_spec 1 m),
    (Z.leb_spec m 12), (Z.leb_spec 1 d), (Z.leb_spec d (_days_in_month y m));
    simpl; try done; lia.
Qed.

Lemma new_datetime_bad_year y m d :
  ¬ (1 <= y <= 9999) → new_datetime y m d = Raise ValueError.
Proof.
  intros Hy. unfold new_datetime, check_date_fields, MINYEAR, MAXYEAR.
  destruct (Z.leb_spec 1 y), (Z.leb_spec y 9999); simpl; try done; lia.
Qed.

(** The boundary list is built exactly for the years 1 to 9998: the last
    entry lies in the year after the input's. *)
Lemma build_boundary_dates_spec y :
  build_boundary_dates y =
    if decide (1 <= y <= 9998) then Ok (map (boundary y) (seq 0 12))
    else Raise ValueError.
Proof.
  unfold build_boundary_dates, enumerate, boundaries. simpl.
  destruct (decide (1 <= y <= 9998)) as [Hy|Hy].
  - rewrite !new_datetime_ok by lia. reflexivity.
  - destruct (decide (1 <= y <= 9999)) as [Hy'|Hy'].
    + assert (y = 9999) as -> by lia. reflexivity.
    + by rewrite (new_datetime_bad_year y 2 4).
Qed.

Lemma boundary_lookup y (i : nat) :
  (i < 12)%nat → map (boundary y) (seq 0 12) !! i = Some (boundary y i).
Proof.
  intros Hi. rewrite list_lookup_fmap, lookup_seq_lt by done. reflexivity.
Qed.

Lemma boundary_year y (i : nat) : (i < 11)%nat → year (boundary y i) = y.
Proof.
  intros Hi. unfold boundary. destruct (nth i boundaries (0, 0)).
  destruct (Nat.ltb_spec i 11); [done|lia].
Qed.

Lemma boundary_step y (i : nat) :
  (i < 11)%nat → dt_lt (boundary y i) (boundary y (S i)) = true.
Proof.
  intros Hi. unfold dt_lt, dt_cmp, boundary, fields.
  do 11 (destruct i as [|i]; [simpl; rewrite ?Z.compare_refl; try reflexivity|]).
  - assert ((y ?= y + 1) = Lt) as -> by (apply Z.compare_lt_iff; lia). done.
  - lia.
Qed.

Lemma boundary_lt y (i j : nat) :
  (i < j)%nat → (j < 12)%nat → dt_lt (boundary y i) (boundary y j) = true.
Proof.
  induction j as [|j IH]; [lia|]. intros Hij Hj.
  destruct (decide (i = j)) as [->|Hne]; [apply boundary_step; lia|].
  eapply dt_lt_trans; [apply IH; lia|apply boundary_step; lia].
Qed.

Lemma boundary_le y (i j : nat) :
  (i <= j)%nat → (j < 12)%nat → dt_le (boundary y i) (boundary y j) = true.
Proof.
  intros Hij Hj. destruct (decide (i = j)) as [->|Hne].
  - rewrite dt_le_negb_lt. by rewrite dt_lt_irrefl.
  - apply dt_lt_le, boundary_lt; lia.
Qed.

(** The loop stops at the interval that holds [dt]. *)
Lemma search_boundaries_found y dt (i : nat) : ∀ (n k : nat),
  (k <= i < k + n)%nat → (i < 11)%nat →
  dt_le (boundary y i) dt = true →
  dt_lt dt (boundary y (S i)) = true →
  search_boundaries (map (boundary y) (seq 0 12)) dt (map Z.of_nat (seq k n))
  = Ok (Some ((2 + Z.of_nat i) mod 12)).
Proof.
  induction n as [|n IH]; intros k Hk Hi Hlo Hhi; [lia|].
  simpl. rewrite (py_index_nat _ k (boundary y k)) by (apply boundary_lookup; lia).
  simpl. destruct (decide (k = i)) as [->|Hne].
  - rewrite Hlo.
    rewrite (py_index_nat_succ _ i (boundary y (S i))) by (apply boundary_lookup; lia).
    simpl. by rewrite Hhi.
  - assert (dt_lt dt (boundary y (S k)) = false) as Hk'.
    { destruct (dt_lt dt (boundary y (S k))) eqn:E; [|done].
      assert (dt_le (boundary y (S k)) dt = true) as Hle.
      { eapply dt_le_trans; [apply (boundary_le y (S k) i); lia|exact Hlo]. }
      pose proof (dt_le_lt_trans _ _ _ Hle E) as Habs.
      by rewrite dt_lt_irrefl in Habs. }
    destruct (dt_le (boundary y k) dt).
    + rewrite (py_index_nat_succ _ k (boundary y (S k))) by (apply boundary_lookup; lia).
      simpl. rewrite Hk'. apply IH; [lia|done..].
    + apply IH; [lia|done..].
Qed.

(** The loop never raises, and what it finds is a branch index. *)
Lemma search_boundaries_total y dt : ∀ (n k : nat),
  (k + n <= 11)%nat →
  ∃ r, search_boundaries (map (boundary y) (seq 0 12)) dt (map Z.of_nat (seq k n))
       = Ok r
       ∧ ∀ b, r = Some b → 0 <= b <= 11.
Proof.
  induction n as [|n IH]; intros k Hk; simpl.
  - exists None. split; [done|]. intros b [=].
  - rewrite (py_index_nat _ k (boundary y k)) by (apply boundary_lookup; lia).
    simpl. destruct (dt_le (boundary y k) dt); [|apply IH; lia].
    rewrite (py_index_nat_succ _ k (boundary y (S k))) by (apply boundary_lookup; lia).
    simpl. destruct (dt_lt dt (boundary y (S k))); [|apply IH; lia].
    eexists. split; [done|]. intros b [= <-].
    pose proof (Z.mod_pos_bound (2 + Z.of_nat k) 12). lia.
Qed.

(** Past the last boundary the loop runs to its end. *)
Lemma search_boundaries_past y dt : ∀ (n k : nat),
  (k + n <= 11)%nat →
  dt_le (boundary y 11) dt = true →
  search_boundaries (map (boundary y) (seq 0 12)) dt (map Z.of_nat (seq k n))
  = Ok None.
Proof.
  induction n as [|n IH]; intros k Hk Hpast; simpl; [done|].
  rewrite (py_index_nat _ k (boundary y k)) by (apply boundary_lookup; lia).
  simpl. destruct (dt_le (boundary y k) dt); [|apply IH; [lia|done]].
  rewrite (py_index_nat_succ _ k (boundary y (S k))) by (apply boundary_lookup; lia).
  simpl.
  assert (dt_lt dt (boundary y (S k)) = false) as ->.
  { destruct (dt_lt dt (boundary y (S k))) eqn:E; [|done].
    assert (dt_le (boundary y (S k)) dt = true) as Hle.
    { eapply dt_le_trans; [apply (boundary_le y (S k) 11); lia|exact Hpast]. }
    pose proof (dt_le_lt_trans _ _ _ Hle E) as Habs.
    by rewrite dt_lt_irrefl in Habs. }
  apply IH; [lia|done].
Qed.

Lemma range_boundaries y :
  range (Z.of_nat (length (map (boundary y) (seq 0 12))) - 1)
  = map Z.of_nat (seq 0 11).
Proof. rewrite length_map, length_seq. reflexivity. Qed.

(** [month_branch] once the boundary list is built. *)
Lemma month_branch_unfold dt :
  1 <= year dt <= 9998 →
  month_branch dt =
    if dt_lt dt (boundary (year dt) 0) then Ok 1
    else
      found ← search_boundaries (map (boundary (year dt)) (seq 0 12)) dt
                (map Z.of_nat (seq 0 11));
      match found with
      | Some b => Ok b
      | None => Ok 1
      end.
Proof.
  intros Hy. unfold month_branch. rewrite build_boundary_dates_spec.
  rewrite decide_True by done.
  change (Ok ?l ≫= ?k) with (k l). cbv beta.
  rewrite (py_index_nat _ 0%nat (boundary (year dt) 0)) by (apply boundary_lookup; lia).
  change (Ok ?l ≫= ?k) with (k l). cbv beta.
  by rewrite range_boundaries.
Qed.

Lemma month_branch_raises dt :
  ¬ (1 <= year dt <= 9998) → month_branch dt = Raise ValueError.
Proof.
  intros Hy. unfold month_branch. rewrite build_boundary_dates_spec.
  by rewrite decide_False.
Qed.

Lemma month_branch_returns dt :
  1 <= year dt <= 9998 → ∃ b, month_branch dt = Ok b ∧ 0 <= b <= 11.
Proof.
  intros Hy. rewrite month_branch_unfold by done.
  destruct (dt_lt dt (boundary (year dt) 0)); [exists 1; split; [done|lia]|].
  destruct (search_boundaries_total (year dt) dt 11 0) as (r & -> & Hr); [lia|].
  simpl. destruct r as [b|]; [|exists 1; split; [done|lia]].
  exists b. split; [done|]. by apply Hr.
Qed.

Lemma month_branch_year dt b : month_branch dt = Ok b → 1 <= year dt <= 9998.
Proof.
  intros H. destruct (decide (1 <= year dt <= 9998)) as [|Hy]; [done|].
  by rewrite month_branch_raises in H.
Qed.

Lemma month_branch_interval dt b (i : nat) :
  month_branch dt = Ok b → (i < 11)%nat →
  dt_le (boundary (year dt) i) dt = true →
  dt_lt dt (boundary (year dt) (S i)) = true →
  b = (2 + Z.of_nat i) mod 12.
Proof.
  intros H Hi Hlo Hhi. pose proof (month_branch_year _ _ H) as Hy.
  rewrite month_branch_unfold in H by done.
  assert (dt_lt dt (boundary (year dt) 0) = false) as Hfirst.
  { destruct (dt_lt dt (boundary (year dt) 0)) eqn:E; [|done].
    assert (dt_le (boundary (year dt) 0) dt = true) as Hle.
    { eapply dt_le_trans; [apply (boundary_le _ 0 i); lia|exact Hlo]. }
    pose proof (dt_le_lt_trans _ _ _ Hle E) as Habs.
    by rewrite dt_lt_irrefl in Habs. }
  rewrite Hfirst in H.
  rewrite (search_boundaries_found (year dt) dt i 11 0) in H by (done || lia).
  simpl in H. congruence.
Qed.

Lemma month_branch_outside dt b :
  month_branch dt = Ok b →
  dt_lt dt (boundary (year dt) 0) = true
  ∨ dt_le (boundary (year dt) 11) dt = true →
  b = 1.
Proof.
  intros H Hout. pose proof (month_branch_year _ _ H) as Hy.
  rewrite month_branch_unfold in H by done.
  destruct (dt_lt dt (boundary (year dt) 0)) eqn:E; [congruence|].
  destruct Hout as [?|Hpast]; [done|].
  rewrite (search_boundaries_past (year dt) dt 11 0) in H by (done || lia).
  simpl in H. congruence.
Qed.

(** ** The year boundary *)

(** On a date-time with a time of day, "before 4 February" as the fallback
    branch tests it is "before midnight of 4 February". *)
Lemma feb4_fallback dt :
  0 <= hour dt → 0 <= minute dt → 0 <= second dt → 0 <= microsecond dt →
  dt_lt dt (mk_datetime (year dt) 2 4 0 0 0 0)
  = (month dt <? 2) || ((month dt =? 2) && (day dt <? 4)).
Proof.
  destruct dt as [y m d h mi s us]. simpl. intros Hh Hmi Hs Hus.
  unfold dt_lt, dt_cmp, fields. simpl. rewrite Z.compare_refl.
  destruct (Z.ltb_spec m 2), (Z.eqb_spec m 2), (Z.ltb_spec d 4); simpl; try lia;
    repeat match goal with
    | |- context [?a ?= ?b] => destruct (Z.compare_spec a b); subst; simpl; try lia
    end; done.
Qed.

(** ** The Five Tigers table *)

Lemma five_tigers_lookup year_stem :
  default 2 (five_tigers_start !! year_stem) = five_tigers_spec year_stem.
Proof.
  destruct (decide (0 <= year_stem <= 9)) as [H|H].
  - assert (year_stem = 0 ∨ year_stem = 1 ∨ year_stem = 2 ∨ year_stem = 3
            ∨ year_stem = 4 ∨ year_stem = 5 ∨ year_stem = 6 ∨ year_stem = 7
            ∨ year_stem = 8 ∨ year_stem = 9)
      as [->|[->|[->|[->|[->|[->|[->|[->|[->| ->]]]]]]]]] by lia;
      reflexivity.
  - unfold five_tigers_start.
    rewrite (not_elem_of_list_to_map_1 _ year_stem).
    + unfold five_tigers_spec.
      repeat match goal with
      | |- context [?a =? ?b] => destruct (Z.eqb_spec a b); [lia|]
      end. reflexivity.
    + simpl. rewrite !not_elem_of_cons. repeat split; try lia. apply not_elem_of_nil.
Qed.

(** ** The tally *)

Lemma sum_values_insert (d : gmap string Z) k v :
  d !! k = None → sum_values (<[k := v]> d) = v + sum_values d.
Proof.
  intros H. unfold sum_values.
  rewrite map_fold_insert_L; [done| |done]. intros. lia.
Qed.

Lemma sum_values_delete (d : gmap string Z) k v :
  d !! k = Some v → sum_values d = v + sum_values (delete k d).
Proof.
  intros H. unfold sum_values.
  rewrite (map_fold_delete_L _ _ k v d); [done| |done]. intros. lia.
Qed.

Lemma dict_incr_sum (d d' : gmap string Z) k :
  dict_incr d k = Ok d' →
  sum_values d' = sum_values d + 1 ∧ dom d' = dom d.
Proof.
  unfold dict_incr. destruct (d !! k) as [v|] eqn:E; [|done].
  intros [= <-]. split.
  - rewrite <- insert_delete_eq.
    rewrite sum_values_insert by apply lookup_delete_eq.
    rewrite (sum_values_delete d k v E). lia.
  - rewrite dom_insert_L. apply elem_of_dom_2 in E.
    apply subseteq_union_1_L, singleton_subseteq_l, E.
Qed.

Lemma dict_incr_ok (d : gmap string Z) k :
  k ∈ dom d → ∃ d', dict_incr d k = Ok d'.
Proof.
  intros [v Hv]%elem_of_dom. unfold dict_incr. rewrite Hv. eauto.
Qed.

Lemma initial_elements_count_dom :
  dom initial_elements_count = list_to_set ["木"; "火"; "土"; "金"; "水"]%string.
Proof. unfold initial_elements_count. rewrite dom_list_to_map_L. reflexivity. Qed.

Lemma stems_ok : Forall symbol_ok HEAVENLY_STEMS.
Proof.
  unfold symbol_ok. rewrite initial_elements_count_dom.
  repeat constructor; simpl; set_solver.
Qed.

Lemma branches_ok : Forall symbol_ok EARTHLY_BRANCHES.
Proof.
  unfold symbol_ok. rewrite initial_elements_count_dom.
  repeat constructor; simpl; set_solver.
Qed.

Lemma py_index_in_range {A} (l : list A) i :
  0 <= i < Z.of_nat (length l) → ∃ a, py_index l i = Ok a ∧ a ∈ l.
Proof.
  intros Hi. destruct (l !! Z.to_nat i) as [a|] eqn:E.
  - exists a. split; [|by eapply list_elem_of_lookup_2].
    rewrite <- (Z2Nat.id i) by lia. by apply py_index_nat.
  - apply lookup_ge_None in E. lia.
Qed.

Lemma tally_step_inv ec yi ya p ec' yi' ya' :
  tally_step (ec, yi, ya) p = Ok (ec', yi', ya') →
  sum_values ec' = sum_values ec + 2
  ∧ yi' + ya' = yi + ya + 2
  ∧ dom ec' = dom ec.
Proof.
  unfold tally_step.
  destruct (py_index HEAVENLY_STEMS (stem_index p)) as [s|] eqn:Es; [|done].
  destruct (py_index EARTHLY_BRANCHES (branch_index p)) as [b|] eqn:Eb; [|done].
  simpl.
  destruct (dict_incr ec (element s)) as [ec1|] eqn:E1; [|done]. simpl.
  destruct (dict_incr ec1 (element b)) as [ec2|] eqn:E2; [|done]. simpl.
  intros [= <- <- <-].
  apply dict_incr_sum in E1 as [S1 D1]. apply dict_incr_sum in E2 as [S2 D2].
  apply py_index_inv in Es, Eb.
  pose proof (proj1 (Forall_forall _ _) stems_ok s Es) as [_ Ps].
  pose proof (proj1 (Forall_forall _ _) branches_ok b Eb) as [_ Pb].
  unfold polarity_units in Ps, Pb. simpl in Ps, Pb.
  repeat split; [lia|lia|congruence].
Qed.

Lemma tally_step_ok ec yi ya p :
  dom ec = dom initial_elements_count →
  0 <= stem_index p <= 9 → 0 <= branch_index p <= 11 →
  ∃ st, tally_step (ec, yi, ya) p = Ok st.
Proof.
  intros Hdom Hs Hb. unfold tally_step.
  destruct (py_index_in_range HEAVENLY_STEMS (stem_index p)) as (s & -> & Hin);
    [simpl; lia|].
  destruct (py_index_in_range EARTHLY_BRANCHES (branch_index p)) as (b & -> & Hinb);
    [simpl; lia|].
  simpl.
  pose proof (proj1 (Forall_forall _ _) stems_ok s Hin) as [Ks _].
  pose proof (proj1 (Forall_forall _ _) branches_ok b Hinb) as [Kb _].
  destruct (dict_incr_ok ec (element s)) as [ec1 E1]; [by rewrite Hdom|].
  rewrite E1. simpl.
  apply dict_incr_sum in E1 as [_ D1].
  destruct (dict_incr_ok ec1 (element b)) as [ec2 E2]; [by rewrite D1, Hdom|].
  rewrite E2. simpl. eauto.
Qed.

Lemma tally_inv ps : ∀ ec yi ya ec' yi' ya',
  tally (ec, yi, ya) ps = Ok (ec', yi', ya') →
  sum_values ec' = sum_values ec + 2 * Z.of_nat (length ps)
  ∧ yi' + ya' = yi + ya + 2 * Z.of_nat (length ps)
  ∧ dom ec' = dom ec.
Proof.
  induction ps as [|p ps IH]; intros ec yi ya ec' yi' ya'; cbn [tally length].
  - intros [= <- <- <-]. repeat split; lia.
  - destruct (tally_step (ec, yi, ya) p) as [[[ec1 yi1] ya1]|] eqn:E; [|done].
    result_step.
    intros H. apply IH in H as (S2 & Y2 & D2).
    apply tally_step_inv in E as (S1 & Y1 & D1).
    repeat split; [lia|lia|congruence].
Qed.

Lemma tally_ok ps : ∀ ec yi ya,
  dom ec = dom initial_elements_count →
  Forall (fun p => 0 <= stem_index p <= 9 ∧ 0 <= branch_index p <= 11) ps →
  ∃ st, tally (ec, yi, ya) ps = Ok st.
Proof.
  induction ps as [|p ps IH]; intros ec yi ya Hdom Hps; cbn [tally]; [eauto|].
  apply Forall_cons in Hps as [[Hs Hb] Hps].
  destruct (tally_step_ok ec yi ya p Hdom Hs Hb) as [[[ec1 yi1] ya1] E].
  rewrite E. result_step. apply IH; [|done].
  apply tally_step_inv in E as (_ & _ & D). congruence.
Qed.

(** ** Index ranges of the four calculators *)

Lemma get_year_pillar_range file dt : in_tables (get_year_pillar file dt).
Proof.
  unfold in_tables, get_year_pillar. cbv zeta. simpl.
  match goal with |- context [?o mod 10 mod 10] =>
    pose proof (Z.mod_pos_bound (o mod 10) 10);
    pose proof (Z.mod_pos_bound (o mod 12) 12) end.
  lia.
Qed.

Lemma get_day_pillar_range dt : in_tables (get_day_pillar dt).
Proof.
  unfold in_tables, get_day_pillar. simpl.
  pose proof (Z.mod_pos_bound (6 + days_between dt ref_date) 10).
  pose proof (Z.mod_pos_bound (0 + days_between dt ref_date) 12).
  lia.
Qed.

Lemma get_hour_pillar_range day_stem dt : in_tables (get_hour_pillar day_stem dt).
Proof.
  unfold in_tables, get_hour_pillar. simpl.
  pose proof (Z.mod_pos_bound ((hour dt + 1) / 2) 12).
  pose proof (Z.mod_pos_bound (day_stem * 2 + ((hour dt + 1) / 2) mod 12) 10).
  lia.
Qed.

Lemma get_month_pillar_inv year_stem year_branch dt s b :
  get_month_pillar year_stem year_branch dt = Ok (s, b) →
  month_branch dt = Ok b ∧ s = month_stem year_stem b.
Proof.
  unfold get_month_pillar. destruct (month_branch dt) as [b'|]; [|done].
  simpl. intros [= <- <-]. done.
Qed.

Lemma get_month_pillar_range year_stem year_branch dt sb :
  get_month_pillar year_stem year_branch dt = Ok sb → in_tables sb.
Proof.
  destruct sb as [s b]. intros [Hb ->]%get_month_pillar_inv.
  pose proof (month_branch_year _ _ Hb) as Hy.
  destruct (month_branch_returns dt Hy) as (b' & Hb' & Hr).
  assert (b' = b) as -> by congruence.
  unfold in_tables, month_stem. simpl.
  match goal with |- context [?x mod 10] => pose proof (Z.mod_pos_bound x 10) end.
  lia.
Qed.

Lemma get_month_pillar_returns year_stem year_branch dt :
  1 <= year dt <= 9998 →
  ∃ sb, get_month_pillar year_stem year_branch dt = Ok sb.
Proof.
  intros Hy. destruct (month_branch_returns dt Hy) as (b & Hb & _).
  unfold get_month_pillar. rewrite Hb. simpl. eauto.
Qed.

Lemma get_month_pillar_raises year_stem year_branch dt :
  ¬ (1 <= year dt <= 9998) →
  get_month_pillar year_stem year_branch dt = Raise ValueError.
Proof.
  intros Hy. unfold get_month_pillar. by rewrite month_branch_raises.
Qed.

(** ** The aggregator *)

Lemma make_pillar_inv label s b p :
  make_pillar label s b = Ok p → stem_index p = s ∧ branch_index p = b.
Proof.
  unfold make_pillar.
  destruct (py_index HEAVENLY_STEMS s); [|done].
  destruct (py_index EARTHLY_BRANCHES b); [|done].
  simpl. by intros [= <-].
Qed.

Lemma make_pillar_ok label s b :
  in_tables (s, b) → ∃ p, make_pillar label s b = Ok p.
Proof.
  intros [Hs Hb]. simpl in Hs, Hb. unfold make_pillar.
  destruct (py_index_in_range HEAVENLY_STEMS s) as (st & -> & _); [simpl; lia|].
  destruct (py_index_in_range EARTHLY_BRANCHES b) as (br & -> & _); [simpl; lia|].
  simpl. eauto.
Qed.

Lemma calculate_bazi_inv file dt r :
  calculate_bazi file dt = Ok r →
  ∃ m, get_month_pillar (get_year_pillar file dt).1 (get_year_pillar file dt).2 dt
       = Ok m
    ∧ pillar_indices r
      = [get_year_pillar file dt; m; get_day_pillar dt;
         get_hour_pillar (get_day_pillar dt).1 dt]
    ∧ tally (initial_elements_count, 0, 0) (pillars r)
      = Ok (elements_count r, yin r, yang r).
Proof.
  unfold calculate_bazi, pillar_indices.
  destruct (get_year_pillar file dt) as [ys yb].
  destruct (get_day_pillar dt) as [ds db]. cbn [fst snd].
  destruct (get_month_pillar ys yb dt) as [[ms mb]|]; [|done]. result_step.
  destruct (get_hour_pillar ds dt) as [hs hb].
  destruct (make_pillar "年柱" ys yb) as [py|] eqn:Ey; [|done]. result_step.
  destruct (make_pillar "月柱" ms mb) as [pm|] eqn:Em; [|done]. result_step.
  destruct (make_pillar "日柱" ds db) as [pd|] eqn:Ed; [|done]. result_step.
  destruct (make_pillar "时柱" hs hb) as [ph|] eqn:Eh; [|done]. result_step.
  destruct (tally _ _) as [[[ec yi] ya]|] eqn:Et; [|done]. result_step.
  intros [= <-]. exists (ms, mb). cbn [pillars elements_count yin yang map].
  apply make_pillar_inv in Ey as [-> ->], Em as [-> ->], Ed as [-> ->],
    Eh as [-> ->].
  done.
Qed.

Lemma calculate_bazi_returns file dt :
  1 <= year dt <= 9998 → ∃ r, calculate_bazi file dt = Ok r.
Proof.
  intros Hy. unfold calculate_bazi.
  pose proof (get_year_pillar_range file dt) as Hyp.
  pose proof (get_day_pillar_range dt) as Hdp.
  destruct (get_year_pillar file dt) as [ys yb].
  destruct (get_day_pillar dt) as [ds db].
  destruct (get_month_pillar_returns ys yb dt Hy) as [[ms mb] Em].
  pose proof (get_month_pillar_range _ _ _ _ Em) as Hmp.
  rewrite Em. result_step.
  pose proof (get_hour_pillar_range ds dt) as Hhp.
  destruct (get_hour_pillar ds dt) as [hs hb].
  destruct (make_pillar_ok "年柱" ys yb Hyp) as [py Ey].
  destruct (make_pillar_ok "月柱" ms mb Hmp) as [pm Em'].
  destruct (make_pillar_ok "日柱" ds db Hdp) as [pd Ed].
  destruct (make_pillar_ok "时柱" hs hb Hhp) as [ph Eh].
  rewrite Ey. result_step.
  rewrite Em'. result_step.
  rewrite Ed. result_step.
  rewrite Eh. result_step.
  destruct (tally_ok [py; pm; pd; ph] initial_elements_count 0 0)
    as [[[ec yi] ya] Et]; [done| |].
  { apply make_pillar_inv in Ey as [? ?], Em' as [? ?], Ed as [? ?], Eh as [? ?].
    unfold in_tables in *. cbn [fst snd] in *. repeat constructor; lia. }
  rewrite Et. result_step. eauto.
Qed.

Lemma calculate_bazi_raises file dt :
  ¬ (1 <= year dt <= 9998) → calculate_bazi file dt = Raise ValueError.
Proof.
  intros Hy. unfold calculate_bazi.
  destruct (get_year_pillar file dt) as [ys yb].
  destruct (get_day_pillar dt) as [ds db].
  by rewrite get_month_pillar_raises.
Qed.

(** Date-times before 1900 are computed, from a negative day delta. *)
Lemma calculate_bazi_before_1900 file dt :
  valid_datetime dt = true → year dt < 1900 →
  days_between dt ref_date < 0 ∧ ∃ r, calculate_bazi file dt = Ok r.
Proof.
  intros (Hy & Hmd & _)%valid_datetime_fields Hlt. split.
  - by apply days_between_before_reference.
  - apply calculate_bazi_returns. lia.
Qed.

(** ** Properties of the calculators *)

(** C1. [calculate_bazi] does not return for every representable date-time:
    on 9999-06-01 12:00, a value [datetime] holds and the request parser
    accepts, building the January boundary of the year 10000 raises
    [ValueError], whatever the lunar-new-year file holds. *)
Theorem calculate_bazi_raises_in_year_9999 :
  valid_datetime (mk_datetime 9999 6 1 12 0 0 0) = true
  ∧ ∀ file, calculate_bazi file (mk_datetime 9999 6 1 12 0 0 0) = Raise ValueError.
Proof.
  split; [reflexivity|]. intros file. apply calculate_bazi_raises. simpl. lia.
Qed.

(** C2. Whenever [get_month_pillar] returns, and it does for every year from
    1 to 9998, the branch index is [(2 + i) mod 12] for the half-open interval
    from boundary [i] (included) to boundary [i + 1] (excluded) that holds the
    date-time, and 1 before the first boundary or from the last one on; a
    date-time equal to boundary [i] gets [(2 + i) mod 12]. *)
Theorem get_month_pillar_branch_intervals year_stem year_branch :
  (∀ dt, 1 <= year dt <= 9998 →
     ∃ sb, get_month_pillar year_stem year_branch dt = Ok sb)
  ∧ (∀ dt s b, get_month_pillar year_stem year_branch dt = Ok (s, b) →
       (∀ i : nat, (i < 11)%nat →
          dt_le (boundary (year dt) i) dt = true →
          dt_lt dt (boundary (year dt) (S i)) = true →
          b = (2 + Z.of_nat i) mod 12)
       ∧ (dt_lt dt (boundary (year dt) 0) = true
          ∨ dt_le (boundary (year dt) 11) dt = true → b = 1))
  ∧ (∀ y (i : nat), 1 <= y <= 9998 → (i < 11)%nat →
       ∃ s, get_month_pillar year_stem year_branch (boundary y i)
            = Ok (s, (2 + Z.of_nat i) mod 12)).
Proof.
  split; [apply get_month_pillar_returns|]. split.
  - intros dt s b [Hb _]%get_month_pillar_inv. split.
    + intros i Hi Hlo Hhi. by eapply month_branch_interval.
    + by apply month_branch_outside.
  - intros y i Hy Hi.
    pose proof (boundary_year y i Hi) as Hyear.
    destruct (get_month_pillar_returns year_stem year_branch (boundary y i))
      as [[s b] E]; [by rewrite Hyear|].
    exists s. rewrite E. do 2 f_equal.
    apply get_month_pillar_inv in E as [Hb _].
    eapply month_branch_interval; [exact Hb|exact Hi| |]; rewrite Hyear.
    + rewrite dt_le_negb_lt. by rewrite dt_lt_irrefl.
    + apply boundary_step, Hi.
Qed.

Lemma get_month_pillar_branch_intervals_witness :
  get_month_pillar 6 6 (mk_datetime 1990 2 4 0 0 0 0) = Ok (4, 2)
  ∧ 2 = (2 + Z.of_nat 0) mod 12.
Proof.
  split; [reflexivity|].
  destruct (get_month_pillar_branch_intervals 6 6) as (_ & H & _).
  destruct (H (mk_datetime 1990 2 4 0 0 0 0) 4 2 eq_refl) as [Hi _].
  apply (Hi 0%nat); [apply Nat.ltb_lt; reflexivity|reflexivity|reflexivity].
Defined.

(** C3. On every representable date-time the year pillar is
    [((Y - 1984) mod 10, (Y - 1984) mod 12)], both in the non-negative range,
    where the BaZi year [Y] is the calendar year, less one exactly when the
    date-time is before that year's boundary: the table's lunar new year when
    the year has an entry, 4 February otherwise (a missing file is an empty
    table).  With no entry for 1984, any time on 1984-06-01 gives (0, 0). *)
Theorem get_year_pillar_spec :
  (∀ file dt, valid_datetime dt = true →
     get_year_pillar file dt
     = ((bazi_year file dt - 1984) mod 10, (bazi_year file dt - 1984) mod 12)
     ∧ in_tables (get_year_pillar file dt))
  ∧ (∀ file h mi s us, load_lunar_new_year file !! 1984 = None →
       get_year_pillar file (mk_datetime 1984 6 1 h mi s us) = (0, 0)).
Proof.
  split.
  - intros file dt Hv. split; [|apply get_year_pillar_range].
    apply valid_datetime_fields in Hv as (_ & _ & Hh & Hmi & Hs & Hus).
    unfold get_year_pillar, bazi_year, year_boundary. cbv zeta.
    rewrite !Z.mod_mod by lia.
    destruct (load_lunar_new_year file !! year dt) as [lny|]; [done|].
    rewrite feb4_fallback by lia. done.
  - intros file h mi s us Hnone. unfold get_year_pillar. cbv zeta.
    cbn [year month day]. rewrite Hnone. reflexivity.
Qed.

Lemma get_year_pillar_spec_witness :
  get_year_pillar (Some {[ 1990 := mk_civil_date 1990 1 27 ]})
    (mk_datetime 1990 1 20 8 30 0 0) = (5, 5)
  ∧ get_year_pillar None (mk_datetime 1984 6 1 0 0 0 0) = (0, 0).
Proof.
  destruct get_year_pillar_spec as [H1 H2]. split.
  - destruct (H1 (Some {[ 1990 := mk_civil_date 1990 1 27 ]})
                (mk_datetime 1990 1 20 8 30 0 0) eq_refl) as [-> _].
    reflexivity.
  - apply (H2 None). reflexivity.
Defined.

(** C4. On every date, also one before the reference, the day pillar is
    [((6 + deltaDays) mod 10, (0 + deltaDays) mod 12)], both in the
    non-negative range, where [deltaDays] is the difference of the Gregorian
    ordinals of the date and of 1900-01-01: it is 0 on the reference and grows
    by one with every calendar day.  1900-01-01 gives (6, 0), the day before
    it has delta -1 and gives (5, 11). *)
Theorem get_day_pillar_spec :
  (∀ dt, get_day_pillar dt
         = ((6 + days_between dt ref_date) mod 10,
            (0 + days_between dt ref_date) mod 12)
         ∧ in_tables (get_day_pillar dt))
  ∧ days_between ref_date ref_date = 0
  ∧ (∀ d, valid_month_day d →
       days_between (next_day d) ref_date = days_between d ref_date + 1)
  ∧ (∀ h mi s us, get_day_pillar (mk_datetime 1900 1 1 h mi s us) = (6, 0))
  ∧ (∀ h mi s us,
       days_between (mk_datetime 1899 12 31 h mi s us) ref_date = -1
       ∧ get_day_pillar (mk_datetime 1899 12 31 h mi s us) = (5, 11)).
Proof.
  split; [|split; [|split; [|split]]].
  - intros dt. split; [reflexivity|apply get_day_pillar_range].
  - reflexivity.
  - intros d Hd. unfold days_between. rewrite toordinal_next_day by done. lia.
  - reflexivity.
  - intros. split; reflexivity.
Qed.

Lemma get_day_pillar_spec_witness :
  days_between (mk_datetime 1900 3 1 0 0 0 0) ref_date
  = days_between (mk_datetime 1900 2 28 0 0 0 0) ref_date + 1.
Proof.
  destruct get_day_pillar_spec as (_ & _ & H & _).
  apply (H (mk_datetime 1900 2 28 0 0 0 0)).
  split; simpl; [lia|]. change (1 <= 28 <= 28). lia.
Defined.

(** C5. For every day stem and every date-time the hour pillar has branch
    [((hour + 1) div 2) mod 12] and stem [(dayStem * 2 + branch) mod 10]; it
    depends on the date-time through its hour only; hours 23 and 0 both give
    branch 0 and, for the same day stem, the same stem. *)
Theorem get_hour_pillar_spec day_stem dt :
  get_hour_pillar day_stem dt
  = ((day_stem * 2 + ((hour dt + 1) / 2) mod 12) mod 10,
     ((hour dt + 1) / 2) mod 12)
  ∧ (∀ dt', hour dt' = hour dt →
       get_hour_pillar day_stem dt' = get_hour_pillar day_stem dt)
  ∧ (hour dt = 23 ∨ hour dt = 0 →
       get_hour_pillar day_stem dt = ((day_stem * 2) mod 10, 0))
  ∧ (0 <= hour dt <= 23 → in_tables (get_hour_pillar day_stem dt)).
Proof.
  split; [reflexivity|]. split; [|split].
  - intros dt' H. unfold get_hour_pillar. by rewrite H.
  - unfold get_hour_pillar. intros [-> | ->]; cbv zeta;
      change ((23 + 1) / 2 mod 12) with 0; change ((0 + 1) / 2 mod 12) with 0;
      by rewrite Z.add_0_r.
  - intros _. apply get_hour_pillar_range.
Qed.

Lemma get_hour_pillar_spec_witness :
  get_hour_pillar 7 (mk_datetime 2001 5 17 23 59 59 999999)
  = get_hour_pillar 7 (mk_datetime 2001 5 17 0 0 0 0).
Proof.
  destruct (get_hour_pillar_spec 7 (mk_datetime 2001 5 17 23 59 59 999999))
    as (_ & _ & H23 & _).
  destruct (get_hour_pillar_spec 7 (mk_datetime 2001 5 17 0 0 0 0))
    as (_ & _ & H0 & _).
  rewrite H23 by (left; reflexivity). rewrite H0 by (right; reflexivity).
  reflexivity.
Defined.

(** C6. For every year stem and every month branch the month stem is
    [(startStem + ((branch - 2) mod 12)) mod 10], where [startStem] follows
    the Five Tigers table (0 and 5 give 2, 1 and 6 give 4, 2 and 7 give 6,
    3 and 8 give 8, 4 and 9 give 0) and is 2 for a year stem outside 0..9;
    this is the stem [get_month_pillar] returns. *)
Theorem month_stem_five_tigers year_stem :
  (∀ b, month_stem year_stem b
        = (five_tigers_spec year_stem + (b - 2) mod 12) mod 10)
  ∧ (∀ year_branch dt s b,
       get_month_pillar year_stem year_branch dt = Ok (s, b) →
       s = (five_tigers_spec year_stem + (b - 2) mod 12) mod 10)
  ∧ (¬ (0 <= year_stem <= 9) → five_tigers_spec year_stem = 2)
  ∧ map five_tigers_spec [0; 1; 2; 3; 4; 5; 6; 7; 8; 9]
    = [2; 4; 6; 8; 0; 2; 4; 6; 8; 0].
Proof.
  assert (∀ b, month_stem year_stem b
               = (five_tigers_spec year_stem + (b - 2) mod 12) mod 10) as Hstem.
  { intros b. unfold month_stem. cbv zeta. by rewrite five_tigers_lookup. }
  split; [exact Hstem|]. split; [|split].
  - intros yb dt s b [_ ->]%get_month_pillar_inv. apply Hstem.
  - intros Hout. unfold five_tigers_spec.
    repeat match goal with
    | |- context [?a =? ?b] => destruct (Z.eqb_spec a b); [lia|]
    end. reflexivity.
  - reflexivity.
Qed.

Lemma month_stem_five_tigers_witness :
  get_month_pillar 6 6 (mk_datetime 1990 12 8 0 0 0 0) = Ok (4, 0)
  ∧ 4 = (five_tigers_spec 6 + (0 - 2) mod 12) mod 10
  ∧ five_tigers_spec 17 = 2.
Proof.
  destruct (month_stem_five_tigers 6) as (_ & H & _).
  destruct (month_stem_five_tigers 17) as (_ & _ & Hdef & _).
  split; [reflexivity|]. split.
  - apply (H 6 (mk_datetime 1990 12 8 0 0 0 0) 4 0). reflexivity.
  - apply Hdef. lia.
Defined.

(** C7. Every result of [calculate_bazi], and there is one for every
    date-time of the years 1 to 9998, has [elements_count] over its five
    element keys with values that sum to 8, and [yin + yang = 8]. *)
Theorem calculate_bazi_counts file dt :
  (1 <= year dt <= 9998 → ∃ r, calculate_bazi file dt = Ok r)
  ∧ (∀ r, calculate_bazi file dt = Ok r →
       sum_values (elements_count r) = 8
       ∧ dom (elements_count r)
         = list_to_set ["木"; "火"; "土"; "金"; "水"]%string
       ∧ yin r + yang r = 8).
Proof.
  split; [apply calculate_bazi_returns|].
  intros r (m & _ & Hidx & Ht)%calculate_bazi_inv.
  assert (length (pillars r) = 4%nat) as Hlen.
  { unfold pillar_indices in Hidx. apply (f_equal length) in Hidx.
    by rewrite length_map in Hidx. }
  apply tally_inv in Ht as (Hs & Hy & Hd). rewrite Hlen in Hs, Hy.
  rewrite Hd, initial_elements_count_dom.
  assert (sum_values initial_elements_count = 0) as H0 by reflexivity.
  repeat split; [lia|lia].
Qed.

Lemma calculate_bazi_counts_witness :
  ∃ r, calculate_bazi None (mk_datetime 1850 2 4 9 15 0 0) = Ok r
       ∧ sum_values (elements_count r) = 8 ∧ yin r + yang r = 8.
Proof.
  destruct (calculate_bazi_counts None (mk_datetime 1850 2 4 9 15 0 0))
    as [Hex Hcount].
  destruct Hex as [r Hr]; [simpl; lia|].
  exists r. destruct (Hcount r Hr) as (Hs & _ & Hy). done.
Defined.

(** C8. The day pillar has period 60 in elapsed days: for every date [d] the
    pillar of the date 60 calendar days after [d] is the pillar of [d]. *)
Theorem get_day_pillar_period_60 d :
  valid_datetime d = true →
  get_day_pillar (add_days 60 d) = get_day_pillar d.
Proof.
  intros (_ & Hmd & _)%valid_datetime_fields.
  unfold get_day_pillar, days_between. cbv zeta.
  rewrite toordinal_add_days by done.
  f_equal.
  - replace (6 + (toordinal d + Z.of_nat 60 - toordinal ref_date))
      with (6 + (toordinal d - toordinal ref_date) + 6 * 10) by lia.
    apply Z_mod_plus_full.
  - replace (0 + (toordinal d + Z.of_nat 60 - toordinal ref_date))
      with (0 + (toordinal d - toordinal ref_date) + 5 * 12) by lia.
    apply Z_mod_plus_full.
Qed.

Lemma get_day_pillar_period_60_witness :
  add_days 60 (mk_datetime 1900 1 1 0 0 0 0) = mk_datetime 1900 3 2 0 0 0 0
  ∧ get_day_pillar (mk_datetime 1900 3 2 0 0 0 0)
    = get_day_pillar (mk_datetime 1900 1 1 0 0 0 0).
Proof.
  split; [reflexivity|].
  apply (get_day_pillar_period_60 (mk_datetime 1900 1 1 0 0 0 0)). reflexivity.
Defined.

(** C9. Every result of [calculate_bazi], and there is one for every
    date-time of the years 1 to 9998, holds four pillars, each with a stem
    index in 0..9 and a branch index in 0..11, positions that exist in
    [HEAVENLY_STEMS] and [EARTHLY_BRANCHES]. *)
Theorem calculate_bazi_indices_in_range file dt :
  (1 <= year dt <= 9998 → ∃ r, calculate_bazi file dt = Ok r)
  ∧ (∀ r, calculate_bazi file dt = Ok r →
       length (pillars r) = 4%nat
       ∧ Forall (fun p =>
                   (0 <= stem_index p <= 9 ∧ 0 <= branch_index p <= 11)
                   ∧ is_Some (HEAVENLY_STEMS !! Z.to_nat (stem_index p))
                   ∧ is_Some (EARTHLY_BRANCHES !! Z.to_nat (branch_index p)))
                (pillars r)).
Proof.
  split; [apply calculate_bazi_returns|].
  intros r (m & Hm & Hidx & _)%calculate_bazi_inv.
  assert (Forall in_tables (pillar_indices r)) as Hall.
  { rewrite Hidx.
    apply Forall_cons_2; [apply get_year_pillar_range|].
    apply Forall_cons_2; [eapply get_month_pillar_range, Hm|].
    apply Forall_cons_2; [apply get_day_pillar_range|].
    apply Forall_cons_2; [apply get_hour_pillar_range|].
    apply Forall_nil_2. }
  split.
  - unfold pillar_indices in Hidx. apply (f_equal length) in Hidx.
    by rewrite length_map in Hidx.
  - unfold pillar_indices in Hall. rewrite Forall_fmap in Hall.
    eapply Forall_impl; [exact Hall|].
    intros p [Hs Hb]. simpl in Hs, Hb. split; [done|].
    split; apply lookup_lt_is_Some; simpl; lia.
Qed.

Lemma calculate_bazi_indices_in_range_witness :
  ∃ r, calculate_bazi None (mk_datetime 2024 2 29 23 30 0 0) = Ok r
       ∧ length (pillars r) = 4%nat.
Proof.
  destruct (calculate_bazi_indices_in_range None
              (mk_datetime 2024 2 29 23 30 0 0)) as [Hex Hr].
  destruct Hex as [r E]; [simpl; lia|].
  exists r. split; [exact E|]. apply (Hr r E).
Defined.

(** C10. The month pillar does not depend on the year branch it receives. *)
Theorem get_month_pillar_ignores_year_branch year_stem b1 b2 dt :
  get_month_pillar year_stem b1 dt = get_month_pillar year_stem b2 dt.
Proof. reflexivity. Qed.

(** ** Further properties: outcome of [calculate_bazi] *)


(** ** Further properties: the month branch *)

(** Comparing with midnight of a day of the same year looks at month and day
    only. *)
Lemma dt_lt_midnight dt bm bd :
  0 <= hour dt → 0 <= minute dt → 0 <= second dt → 0 <= microsecond dt →
  dt_lt dt (mk_datetime (year dt) bm bd 0 0 0 0)
  = (month dt <? bm) || ((month dt =? bm) && (day dt <? bd)).
Proof.
  destruct dt as [y m d h mi s us]. simpl. intros Hh Hmi Hs Hus.
  unfold dt_lt, dt_cmp, fields. simpl. rewrite Z.compare_refl.
  destruct (Z.ltb_spec m bm), (Z.eqb_spec m bm), (Z.ltb_spec d bd); simpl; try lia;
    repeat match goal with
    | |- context [?a ?= ?b] => destruct (Z.compare_spec a b); subst; simpl; try lia
    end; done.
Qed.

Lemma boundary_month_day y (i : nat) m d :
  (i < 11)%nat → boundaries !! i = Some (m, d) →
  boundary y i = mk_datetime y m d 0 0 0 0.
Proof.
  intros Hi H. unfold boundary.
  rewrite (nth_lookup_Some _ _ _ _ H).
  destruct (Nat.ltb_spec i 11); [done|lia].
Qed.

Lemma dt_lt_boundary dt (i : nat) m d :
  valid_datetime dt = true → (i < 11)%nat → boundaries !! i = Some (m, d) →
  dt_lt dt (boundary (year dt) i)
  = (month dt <? m) || ((month dt =? m) && (day dt <? d)).
Proof.
  intros (_ & _ & Hh & Hmi & Hs & Hus)%valid_datetime_fields Hi H.
  rewrite (boundary_month_day _ _ _ _ Hi H). apply dt_lt_midnight; lia.
Qed.

(** Every date-time is before the January boundary of the following year. *)
Lemma dt_lt_next_january dt : dt_lt dt (boundary (year dt) 11) = true.
Proof.
  unfold dt_lt, dt_cmp, boundary, fields. simpl.
  assert ((year dt ?= year dt + 1) = Lt) as -> by (apply Z.compare_lt_iff; lia).
  done.
Qed.

(** A date-time from the first boundary on lies in one of the intervals. *)
Lemma boundary_cover y dt : ∀ n : nat,
  dt_lt dt (boundary y 0) = false →
  dt_lt dt (boundary y n) = true →
  ∃ i : nat, (i < n)%nat
    ∧ dt_le (boundary y i) dt = true
    ∧ dt_lt dt (boundary y (S i)) = true.
Proof.
  induction n as [|n IH]; intros H0 Hn; [congruence|].
  destruct (dt_lt dt (boundary y n)) eqn:E.
  - destruct (IH H0 eq_refl) as (i & Hi & Hlo & Hhi). exists i. split; [lia|done].
  - exists n. split; [lia|]. split; [|done].
    rewrite dt_le_negb_lt. by rewrite E.
Qed.

Lemma interval_branch_not_chou (i : nat) :
  (i < 11)%nat → (2 + Z.of_nat i) mod 12 ≠ 1.
Proof. intros Hi. Z.div_mod_to_equations. lia. Qed.

(** X2. The loop of [get_month_pillar] always leaves through [break]: no
    date-time is at or past the last boundary, so from the first boundary on
    the branch is that of the interval holding the date-time, never the
    fallback 1 of the [else] clause. *)
Theorem get_month_pillar_loop_always_breaks year_stem year_branch dt s b :
  get_month_pillar year_stem year_branch dt = Ok (s, b) →
  dt_le (boundary (year dt) 11) dt = false
  ∧ (dt_lt dt (boundary (year dt) 0) = false →
     (∃ bds, build_boundary_dates (year dt) = Ok bds
        ∧ search_boundaries bds dt (range (Z.of_nat (length bds) - 1))
          = Ok (Some b))
     ∧ b ≠ 1
     ∧ ∃ i : nat, (i < 11)%nat
         ∧ dt_le (boundary (year dt) i) dt = true
         ∧ dt_lt dt (boundary (year dt) (S i)) = true
         ∧ b = (2 + Z.of_nat i) mod 12).
Proof.
  intros [Hb _]%get_month_pillar_inv. split.
  { rewrite dt_le_negb_lt. by rewrite dt_lt_next_january. }
  intros H0. pose proof (month_branch_year _ _ Hb) as Hy.
  destruct (boundary_cover (year dt) dt 11 H0 (dt_lt_next_january dt))
    as (i & Hi & Hlo & Hhi).
  pose proof (month_branch_interval dt b i Hb Hi Hlo Hhi) as ->.
  split; [|split].
  - exists (map (boundary (year dt)) (seq 0 12)). split.
    + rewrite build_boundary_dates_spec. by rewrite decide_True.
    + rewrite range_boundaries. apply search_boundaries_found; (done || lia).
  - by apply interval_branch_not_chou.
  - exists i. done.
Qed.

Lemma get_month_pillar_loop_always_breaks_witness :
  ∃ i : nat, (i < 11)%nat ∧ 6 = (2 + Z.of_nat i) mod 12.
Proof.
  destruct (get_month_pillar_loop_always_breaks 0 0
              (mk_datetime 2000 6 15 10 0 0 0) 6 6 eq_refl) as [_ H].
  destruct (H eq_refl) as (_ & _ & i & Hi & _ & _ & Hb).
  exists i. split; [exact Hi|exact Hb].
Defined.

(** The branch is the fallback 1 exactly before 4 February. *)
Lemma month_branch_chou_iff dt b :
  valid_datetime dt = true → month_branch dt = Ok b →
  (b =? 1) = (month dt <? 2) || ((month dt =? 2) && (day dt <? 4)).
Proof.
  intros Hv Hb.
  assert (dt_lt dt (boundary (year dt) 0)
          = (month dt <? 2) || ((month dt =? 2) && (day dt <? 4))) as <-.
  { apply dt_lt_boundary; [done|lia|reflexivity]. }
  destruct (dt_lt dt (boundary (year dt) 0)) eqn:H0.
  - rewrite (month_branch_outside dt b Hb) by (by left). done.
  - destruct (boundary_cover (year dt) dt 11 H0 (dt_lt_next_january dt))
      as (i & Hi & Hlo & Hhi).
    rewrite (month_branch_interval dt b i Hb Hi Hlo Hhi).
    apply Z.eqb_neq. by apply interval_branch_not_chou.
Qed.

(** The branch of a date-time that lies in month [m] of boundary [i]. *)
Lemma month_branch_in_month dt b (i : nat) m d :
  valid_datetime dt = true → month_branch dt = Ok b →
  (i < 11)%nat → boundaries !! i = Some (m, d) → month dt = m →
  (∀ m' d', boundaries !! S i = Some (m', d') → (S i < 11)%nat → m < m') →
  (∀ (j : nat) m' d', S j = i → boundaries !! j = Some (m', d') → m' < m) →
  b = if day dt <? d
      then match i with O => 1 | S j => (2 + Z.of_nat j) mod 12 end
      else (2 + Z.of_nat i) mod 12.
Proof.
  intros Hv Hb Hi Hbi Hm Hnext Hprev.
  pose proof (dt_lt_boundary dt i m d Hv Hi Hbi) as Hcmp.
  rewrite Hm, Z.ltb_irrefl, Z.eqb_refl in Hcmp. simpl in Hcmp.
  destruct (day dt <? d) eqn:Hday.
  - destruct i as [|j].
    + apply (month_branch_outside dt b Hb). by left.
    + destruct (boundaries !! j) as [[m' d']|] eqn:Hbj.
      2: { apply lookup_ge_None in Hbj. apply lookup_lt_Some in Hbi. lia. }
      apply (month_branch_interval dt b j Hb); [lia| |done].
      rewrite dt_le_negb_lt, (dt_lt_boundary dt j m' d' Hv) by (done || lia).
      pose proof (Hprev j m' d' eq_refl Hbj).
      destruct (Z.ltb_spec (month dt) m'), (Z.eqb_spec (month dt) m'); simpl; lia.
  - apply (month_branch_interval dt b i Hb Hi).
    + rewrite dt_le_negb_lt. by rewrite Hcmp.
    + destruct (decide (S i < 11)%nat) as [Hlt|Hge].
      * destruct (boundaries !! S i) as [[m' d']|] eqn:Hbs.
        2: { apply lookup_ge_None in Hbs. simpl in Hbs. lia. }
        rewrite (dt_lt_boundary dt (S i) m' d' Hv) by done.
        pose proof (Hnext m' d' eq_refl Hlt).
        destruct (Z.ltb_spec (month dt) m'); simpl; [done|lia].
      * assert (S i = 11%nat) as -> by lia. apply dt_lt_next_january.
Qed.

(** X3. The month branch follows from month and day alone: all of January
    has branch 1, and in a month [m] from February to December, whose
    boundary day in [boundaries] is [d], the branch is [m mod 12] from day [d]
    on and [m - 1] before it. *)
Theorem get_month_pillar_branch_by_month year_stem year_branch dt s b :
  valid_datetime dt = true →
  get_month_pillar year_stem year_branch dt = Ok (s, b) →
  (month dt = 1 → b = 1)
  ∧ (∀ m d, (m, d) ∈ boundaries → m ≠ 1 → month dt = m →
       b = if day dt <? d then m - 1 else m mod 12).
Proof.
  intros Hv [Hb _]%get_month_pillar_inv. split.
  - intros Hm. pose proof (month_branch_chou_iff dt b Hv Hb) as H.
    rewrite Hm in H. simpl in H. by apply Z.eqb_eq.
  - intros m d Hin Hne Hm. unfold boundaries in Hin.
    repeat (apply elem_of_cons in Hin as [[= -> ->]|Hin]);
      [ .. | by apply elem_of_nil in Hin];
      try done;
      lazymatch goal with
      | Hmonth : month dt = ?m |- _ = (if _ <? ?d then _ else _) =>
          let i := eval vm_compute in (Z.to_nat (m - 2)) in
          apply (month_branch_in_month dt b i m d Hv Hb);
            [ simpl; lia | reflexivity | done
            | intros m' d' Hnext Hlt; vm_compute in Hnext;
              injection Hnext as <- <-; lia
            | intros j m' d' Hj Hprev;
              first [ discriminate Hj
                    | injection Hj as ->; vm_compute in Hprev;
                      injection Hprev as <- <-; lia ] ]
      end.
Qed.

Lemma get_month_pillar_branch_by_month_witness :
  get_month_pillar 3 9 (mk_datetime 2023 10 7 23 59 0 0) = Ok (5, 9)
  ∧ 9 = (if 7 <? 8 then 10 - 1 else 10 mod 12).
Proof.
  split; [reflexivity|].
  destruct (get_month_pillar_branch_by_month 3 9
              (mk_datetime 2023 10 7 23 59 0 0) 5 9 eq_refl eq_refl) as [_ H].
  apply (H 10 8); [|lia|reflexivity].
  unfold boundaries. rewrite !elem_of_cons. do 8 right. by left.
Defined.

(** X4. Without a table entry for the date-time's year, the year pillar and
    the month pillar turn over together on 4 February: the year pillar is
    that of the previous calendar year exactly when the month branch is the
    fallback 1, and that of the calendar year otherwise. *)
Theorem year_pillar_turns_with_month_branch file year_stem year_branch dt s b :
  valid_datetime dt = true →
  load_lunar_new_year file !! year dt = None →
  get_month_pillar year_stem year_branch dt = Ok (s, b) →
  get_year_pillar file dt
  = (((if b =? 1 then year dt - 1 else year dt) - 1984) mod 10,
     ((if b =? 1 then year dt - 1 else year dt) - 1984) mod 12).
Proof.
  intros Hv Hnone [Hb _]%get_month_pillar_inv.
  unfold get_year_pillar. cbv zeta. rewrite Hnone.
  rewrite (month_branch_chou_iff dt b Hv Hb).
  rewrite !Z.mod_mod by lia. done.
Qed.

Lemma year_pillar_turns_with_month_branch_witness :
  get_year_pillar None (mk_datetime 2024 2 3 12 0 0 0) = (9, 3).
Proof.
  rewrite (year_pillar_turns_with_month_branch None 9 3
             (mk_datetime 2024 2 3 12 0 0 0) 1 1 eq_refl eq_refl eq_refl).
  reflexivity.
Defined.

(** ** Further properties: pillars as pairs of the sexagenary cycle *)

Lemma five_tigers_spec_even year_stem : five_tigers_spec year_stem mod 2 = 0.
Proof.
  unfold five_tigers_spec.
  repeat match goal with
  | |- context [if ?c then _ else _] => destruct c
  end; reflexivity.
Qed.

Lemma get_year_pillar_parity file dt :
  (get_year_pillar file dt).1 mod 2 = (get_year_pillar file dt).2 mod 2.
Proof.
  unfold get_year_pillar. cbv zeta. cbn [fst snd].
  match goal with |- context [?o mod 10 mod 10] => generalize o end.
  intros o. Z.div_mod_to_equations. lia.
Qed.

Lemma get_day_pillar_parity dt :
  (get_day_pillar dt).1 mod 2 = (get_day_pillar dt).2 mod 2.
Proof.
  unfold get_day_pillar. cbv zeta. cbn [fst snd].
  generalize (days_between dt ref_date). intros o.
  Z.div_mod_to_equations. lia.
Qed.

Lemma get_hour_pillar_parity day_stem dt :
  (get_hour_pillar day_stem dt).1 mod 2 = (get_hour_pillar day_stem dt).2 mod 2.
Proof.
  unfold get_hour_pillar. cbv zeta. cbn [fst snd].
  generalize (((hour dt + 1) / 2) mod 12). intros o.
  Z.div_mod_to_equations. lia.
Qed.

Lemma month_stem_parity year_stem b : month_stem year_stem b mod 2 = b mod 2.
Proof.
  unfold month_stem. cbv zeta. rewrite five_tigers_lookup.
  pose proof (five_tigers_spec_even year_stem) as He. revert He.
  generalize (five_tigers_spec year_stem). intros o He.
  Z.div_mod_to_equations. lia.
Qed.

(** X5. In every result each pillar pairs a stem and a branch of the same
    parity, so each of the four pillars is one of the sixty pairs of the
    sexagenary cycle. *)
Theorem calculate_bazi_pillars_sexagenary file dt r :
  calculate_bazi file dt = Ok r →
  Forall (fun p => stem_index p mod 2 = branch_index p mod 2) (pillars r).
Proof.
  intros (m & Hm & Hidx & _)%calculate_bazi_inv.
  assert (Forall (fun sb : Z * Z => sb.1 mod 2 = sb.2 mod 2) (pillar_indices r))
    as Hall.
  { rewrite Hidx.
    apply Forall_cons_2; [apply get_year_pillar_parity|].
    apply Forall_cons_2.
    { destruct m as [s b]. apply get_month_pillar_inv in Hm as [_ ->].
      apply month_stem_parity. }
    apply Forall_cons_2; [apply get_day_pillar_parity|].
    apply Forall_cons_2; [apply get_hour_pillar_parity|].
    apply Forall_nil_2. }
  unfold pillar_indices in Hall. by rewrite Forall_fmap in Hall.
Qed.

Lemma calculate_bazi_pillars_sexagenary_witness :
  ∃ r, calculate_bazi None (mk_datetime 1976 7 4 14 5 0 0) = Ok r
       ∧ Forall (fun p => stem_index p mod 2 = branch_index p mod 2) (pillars r).
Proof.
  eexists. split; [vm_compute; reflexivity|].
  apply (calculate_bazi_pillars_sexagenary None (mk_datetime 1976 7 4 14 5 0 0)).
  vm_compute. reflexivity.
Defined.

(** ** Further properties: what the tally counts *)

Lemma count_if_app {A} (f : A → bool) l1 l2 :
  count_if f (l1 ++ l2) = count_if f l1 + count_if f l2.
Proof. unfold count_if. rewrite List.filter_app, length_app. lia. Qed.

Lemma count_if_pair {A} (f : A → bool) a b :
  count_if f [a; b] = (if f a then 1 else 0) + (if f b then 1 else 0).
Proof. unfold count_if. simpl. destruct (f a), (f b); reflexivity. Qed.

Lemma dict_incr_lookup (d d' : gmap string Z) k e v :
  dict_incr d k = Ok d' → d !! e = Some v →
  d' !! e = Some (v + (if String.eqb k e then 1 else 0)).
Proof.
  unfold dict_incr. destruct (d !! k) as [w|] eqn:E; [|done].
  intros [= <-] He. destruct (String.eqb_spec k e) as [->|Hne].
  - rewrite lookup_insert_eq. congruence.
  - rewrite lookup_insert_ne by done. rewrite He. f_equal. lia.
Qed.

Lemma tally_step_counts ec yi ya p ec' yi' ya' :
  tally_step (ec, yi, ya) p = Ok (ec', yi', ya') →
  length (pillar_symbols p) = 2%nat
  ∧ (∀ e v, ec !! e = Some v →
       ec' !! e
       = Some (v + count_if (fun s => String.eqb (element s) e) (pillar_symbols p)))
  ∧ yi' = yi + count_if (fun s => String.eqb (yin_yang s) "阴") (pillar_symbols p)
  ∧ ya' = ya + count_if (fun s => String.eqb (yin_yang s) "阳") (pillar_symbols p).
Proof.
  unfold tally_step, pillar_symbols.
  destruct (py_index HEAVENLY_STEMS (stem_index p)) as [s|]; [|done].
  destruct (py_index EARTHLY_BRANCHES (branch_index p)) as [b|]; [|done].
  do 2 result_step.
  destruct (dict_incr ec (element s)) as [ec1|] eqn:E1; [|done]. result_step.
  destruct (dict_incr ec1 (element b)) as [ec2|] eqn:E2; [|done]. result_step.
  intros [= <- <- <-]. rewrite !count_if_pair.
  split; [done|]. split; [|split; lia].
  intros e v He. rewrite count_if_pair.
  rewrite (dict_incr_lookup _ _ _ e _ E2 (dict_incr_lookup _ _ _ e _ E1 He)).
  f_equal. lia.
Qed.

Lemma tally_counts ps : ∀ ec yi ya ec' yi' ya',
  tally (ec, yi, ya) ps = Ok (ec', yi', ya') →
  length (concat (map pillar_symbols ps)) = (2 * length ps)%nat
  ∧ (∀ e v, ec !! e = Some v →
       ec' !! e
       = Some (v + count_if (fun s => String.eqb (element s) e)
                     (concat (map pillar_symbols ps))))
  ∧ yi' = yi + count_if (fun s => String.eqb (yin_yang s) "阴")
                 (concat (map pillar_symbols ps))
  ∧ ya' = ya + count_if (fun s => String.eqb (yin_yang s) "阳")
                 (concat (map pillar_symbols ps)).
Proof.
  induction ps as [|p ps IH]; intros ec yi ya ec' yi' ya'; cbn [tally map concat].
  - intros [= <- <- <-]. unfold count_if. simpl.
    split; [done|]. split; [|lia].
    intros e v ->. f_equal. lia.
  - destruct (tally_step (ec, yi, ya) p) as [[[ec1 yi1] ya1]|] eqn:E; [|done].
    result_step. intros H.
    apply tally_step_counts in E as (L1 & E1 & Y1 & A1).
    apply IH in H as (L2 & E2 & Y2 & A2).
    rewrite !count_if_app, length_app.
    split; [simpl; lia|]. split; [|lia].
    intros e v He. rewrite count_if_app, (E2 e _ (E1 e v He)). f_equal. lia.
Qed.

Lemma initial_elements_count_lookup e :
  e ∈ ["木"; "火"; "土"; "金"; "水"]%string → initial_elements_count !! e = Some 0.
Proof.
  rewrite !elem_of_cons, elem_of_nil.
  intros [->|[->|[->|[->|[->|[]]]]]]; reflexivity.
Qed.

(** X6. The tally is exact: in every result there are eight table entries
    behind the four pillars, [elements_count] gives for each of the five
    elements the number of them with that element, and [yin] and [yang] the
    numbers of them marked yin and yang. *)
Theorem calculate_bazi_tally_exact file dt r :
  calculate_bazi file dt = Ok r →
  length (result_symbols r) = 8%nat
  ∧ (∀ e, e ∈ ["木"; "火"; "土"; "金"; "水"]%string →
       elements_count r !! e
       = Some (count_if (fun s => String.eqb (element s) e) (result_symbols r)))
  ∧ yin r = count_if (fun s => String.eqb (yin_yang s) "阴") (result_symbols r)
  ∧ yang r = count_if (fun s => String.eqb (yin_yang s) "阳") (result_symbols r).
Proof.
  intros (m & _ & Hidx & Ht)%calculate_bazi_inv.
  assert (length (pillars r) = 4%nat) as Hlen.
  { unfold pillar_indices in Hidx. apply (f_equal length) in Hidx.
    by rewrite length_map in Hidx. }
  apply tally_counts in Ht as (L & E & Y & A). unfold result_symbols.
  split; [lia|]. split; [|lia].
  intros e He. by rewrite (E e 0 (initial_elements_count_lookup e He)).
Qed.

Lemma calculate_bazi_tally_exact_witness :
  ∃ r, calculate_bazi None (mk_datetime 1990 2 4 0 0 0 0) = Ok r
       ∧ elements_count r !! "木"%string
         = Some (count_if (fun s => String.eqb (element s) "木") (result_symbols r))
       ∧ yin r = 0 ∧ yang r = 8.
Proof.
  eexists. split; [vm_compute; reflexivity|].
  destruct (calculate_bazi_tally_exact None (mk_datetime 1990 2 4 0 0 0 0) _
              ltac:(vm_compute; reflexivity)) as (_ & He & Hy & Ha).
  split; [|split; [rewrite Hy|rewrite Ha]; reflexivity].
  apply He. rewrite !elem_of_cons. by left.
Defined.

(** Odd positions of both tables are marked yin, even ones yang. *)
Lemma pillar_symbols_yin p :
  0 <= stem_index p <= 9 → 0 <= branch_index p <= 11 →
  stem_index p mod 2 = branch_index p mod 2 →
  count_if (fun s => String.eqb (yin_yang s) "阴") (pillar_symbols p)
  = 2 * (if Z.odd (stem_index p) then 1 else 0).
Proof.
  destruct p as [l s b ns nb]. cbn [stem_index branch_index]. intros Hs Hb.
  assert (s = 0 ∨ s = 1 ∨ s = 2 ∨ s = 3 ∨ s = 4 ∨ s = 5 ∨ s = 6 ∨ s = 7
          ∨ s = 8 ∨ s = 9)
    as [->|[->|[->|[->|[->|[->|[->|[->|[->| ->]]]]]]]]] by lia;
  assert (b = 0 ∨ b = 1 ∨ b = 2 ∨ b = 3 ∨ b = 4 ∨ b = 5 ∨ b = 6 ∨ b = 7
          ∨ b = 8 ∨ b = 9 ∨ b = 10 ∨ b = 11)
    as [->|[->|[->|[->|[->|[->|[->|[->|[->|[->|[->| ->]]]]]]]]]]] by lia;
  intros Hpar; vm_compute in Hpar; try discriminate Hpar; reflexivity.
Qed.

Lemma pillars_yin ps :
  Forall (fun p => (0 <= stem_index p <= 9 ∧ 0 <= branch_index p <= 11)
                   ∧ stem_index p mod 2 = branch_index p mod 2) ps →
  count_if (fun s => String.eqb (yin_yang s) "阴") (concat (map pillar_symbols ps))
  = 2 * count_if (fun p => Z.odd (stem_index p)) ps.
Proof.
  induction 1 as [|p ps [[Hs Hb] Hpar] _ IH]; [reflexivity|].
  cbn [map concat]. rewrite count_if_app, IH, pillar_symbols_yin by done.
  unfold count_if. cbn [List.filter].
  destruct (Z.odd (stem_index p)); cbn [length]; lia.
Qed.

(** Range and parity of every pillar of a result. *)
Lemma calculate_bazi_pillars_ok file dt r :
  calculate_bazi file dt = Ok r →
  Forall (fun p => (0 <= stem_index p <= 9 ∧ 0 <= branch_index p <= 11)
                   ∧ stem_index p mod 2 = branch_index p mod 2) (pillars r).
Proof.
  intros (m & Hm & Hidx & _)%calculate_bazi_inv.
  assert (Forall (fun sb : Z * Z => in_tables sb ∧ sb.1 mod 2 = sb.2 mod 2)
            (pillar_indices r)) as Hall.
  { rewrite Hidx.
    apply Forall_cons_2;
      [split; [apply get_year_pillar_range|apply get_year_pillar_parity]|].
    apply Forall_cons_2.
    { split; [eapply get_month_pillar_range, Hm|].
      destruct m as [s b]. apply get_month_pillar_inv in Hm as [_ ->].
      apply month_stem_parity. }
    apply Forall_cons_2;
      [split; [apply get_day_pillar_range|apply get_day_pillar_parity]|].
    apply Forall_cons_2;
      [split; [apply get_hour_pillar_range|apply get_hour_pillar_parity]|].
    apply Forall_nil_2. }
  unfold pillar_indices in Hall. by rewrite Forall_fmap in Hall.
Qed.

(** X7. In every result [yin] is twice the number of pillars with an odd
    stem index and [yang] is the rest of the eight: both counts are even. *)
Theorem calculate_bazi_yin_even file dt r :
  calculate_bazi file dt = Ok r →
  yin r = 2 * count_if (fun p => Z.odd (stem_index p)) (pillars r)
  ∧ yang r = 8 - yin r
  ∧ 0 <= yin r <= 8.
Proof.
  intros Hr. pose proof (calculate_bazi_pillars_ok _ _ _ Hr) as Hok.
  apply calculate_bazi_inv in Hr as (m & _ & Hidx & Ht).
  assert (length (pillars r) = 4%nat) as Hlen.
  { unfold pillar_indices in Hidx. apply (f_equal length) in Hidx.
    by rewrite length_map in Hidx. }
  pose proof (tally_inv _ _ _ _ _ _ _ Ht) as (_ & Hsum & _).
  apply tally_counts in Ht as (_ & _ & Hy & _).
  rewrite pillars_yin in Hy by done.
  assert (0 <= count_if (fun p => Z.odd (stem_index p)) (pillars r) <= 4) as Hc.
  { unfold count_if. pose proof (List.filter_length_le
      (fun p => Z.odd (stem_index p)) (pillars r)). lia. }
  lia.
Qed.

Lemma calculate_bazi_yin_even_witness :
  ∃ r, calculate_bazi None (mk_datetime 2001 9 11 8 46 0 0) = Ok r
       ∧ yin r = 2 * count_if (fun p => Z.odd (stem_index p)) (pillars r).
Proof.
  eexists. split; [vm_compute; reflexivity|].
  apply (calculate_bazi_yin_even None (mk_datetime 2001 9 11 8 46 0 0)).
  vm_compute. reflexivity.
Defined.

(** ** Further properties: the day pillar *)

(** X8. From one calendar day to the next the day pillar moves one step in
    both cycles: the stem index goes up by one modulo 10 and the branch index
    by one modulo 12. *)
Theorem get_day_pillar_next_day d :
  valid_datetime d = true →
  get_day_pillar (next_day d)
  = (((get_day_pillar d).1 + 1) mod 10, ((get_day_pillar d).2 + 1) mod 12).
Proof.
  intros (_ & Hmd & _)%valid_datetime_fields.
  unfold get_day_pillar, days_between. cbv zeta. cbn [fst snd].
  rewrite toordinal_next_day by done.
  replace (toordinal d + 1 - toordinal ref_date)
    with (toordinal d - toordinal ref_date + 1) by lia.
  generalize (toordinal d - toordinal ref_date). clear. intros o.
  f_equal; Z.div_mod_to_equations; lia.
Qed.

Lemma get_day_pillar_next_day_witness :
  get_day_pillar (mk_datetime 2024 3 1 6 0 0 0)
  = (((get_day_pillar (mk_datetime 2024 2 29 6 0 0 0)).1 + 1) mod 10,
     ((get_day_pillar (mk_datetime 2024 2 29 6 0 0 0)).2 + 1) mod 12).
Proof.
  apply (get_day_pillar_next_day (mk_datetime 2024 2 29 6 0 0 0)). reflexivity.
Defined.

(** X9. The day pillar comes back after [n] calendar days exactly when [n]
    is a multiple of 60: 60 is its least period. *)
Theorem get_day_pillar_period_exact d (n : nat) :
  valid_datetime d = true →
  get_day_pillar (add_days n d) = get_day_pillar d ↔ Z.of_nat n mod 60 = 0.
Proof.
  intros (_ & Hmd & _)%valid_datetime_fields.
  unfold get_day_pillar, days_between. cbv zeta.
  rewrite toordinal_add_days by done.
  replace (toordinal d + Z.of_nat n - toordinal ref_date)
    with (toordinal d - toordinal ref_date + Z.of_nat n) by lia.
  generalize (toordinal d - toordinal ref_date). intros o.
  generalize (Z.of_nat n). clear. intros k.
  split.
  - intros [= H10 H12]. Z.div_mod_to_equations. lia.
  - intros H. f_equal; Z.div_mod_to_equations; lia.
Qed.

Lemma get_day_pillar_period_exact_witness :
  get_day_pillar (add_days 120 (mk_datetime 1999 12 31 0 0 0 0))
  = get_day_pillar (mk_datetime 1999 12 31 0 0 0 0)
  ∧ get_day_pillar (add_days 30 (mk_datetime 1999 12 31 0 0 0 0))
    ≠ get_day_pillar (mk_datetime 1999 12 31 0 0 0 0).
Proof.
  split.
  - apply (get_day_pillar_period_exact (mk_datetime 1999 12 31 0 0 0 0) 120);
      reflexivity.
  - intros H.
    apply (get_day_pillar_period_exact (mk_datetime 1999 12 31 0 0 0 0) 30) in H;
      [discriminate H|reflexivity].
Defined.

Lemma days_between_from_reference dt :
  valid_month_day dt → 1900 <= year dt → 0 <= days_between dt ref_date.
Proof.
  destruct dt as [y m d h mi s us]. unfold valid_month_day. simpl.
  intros [Hm Hd] Hy.
  assert (0 <= _days_before_month y m) as Hbefore.
  { unfold _days_before_month.
    destruct (month_cases m Hm) as [->|[->|[->|[->|[->|[->|[->|[->|[->|[->|[->| ->]]]]]]]]]]];
      simpl; destruct (_is_leap y); simpl; lia. }
  assert (693595 <= _days_before_year y) as Hmono.
  { clear - Hy. unfold _days_before_year. cbv zeta.
    assert (474 <= (y - 1) / 4) by (apply Z.div_le_lower_bound; lia).
    assert (4 <= (y - 1) / 400) by (apply Z.div_le_lower_bound; lia).
    assert ((y - 1) / 100 <= 18 + (y - 1900)) by (Z.div_mod_to_equations; lia).
    lia. }
  unfold days_between, toordinal. cbn [year month day ref_date].
  change (_ymd2ord 1900 1 1) with 693596. unfold _ymd2ord. lia.
Qed.

(** X10. The day delta of [get_day_pillar] is negative exactly for the dates
    before 1900; the indices it yields are in range on both sides. *)
Theorem get_day_pillar_delta_sign dt :
  valid_datetime dt = true →
  (days_between dt ref_date < 0 ↔ year dt < 1900)
  ∧ 0 <= (get_day_pillar dt).1 <= 9 ∧ 0 <= (get_day_pillar dt).2 <= 11.
Proof.
  intros (_ & Hmd & _)%valid_datetime_fields. split; [|apply get_day_pillar_range].
  split.
  - intros Hneg. destruct (Z.lt_ge_cases (year dt) 1900) as [|Hge]; [done|].
    pose proof (days_between_from_reference dt Hmd Hge). lia.
  - by apply days_between_before_reference.
Qed.

Lemma get_day_pillar_delta_sign_witness :
  days_between (mk_datetime 1644 4 25 12 0 0 0) ref_date < 0
  ∧ 0 <= (get_day_pillar (mk_datetime 1644 4 25 12 0 0 0)).1 <= 9.
Proof.
  destruct (get_day_pillar_delta_sign (mk_datetime 1644 4 25 12 0 0 0) eq_refl)
    as (Hsign & Hstem & _).
  split; [apply Hsign; reflexivity|exact Hstem].
Defined.

(** ** Further properties: the hour pillar *)

(** X11. For an hour of day from 0 to 23 the hour branch is 0 exactly at
    hours 23 and 0, and is [k], from 1 to 11, exactly at the two hours
    [2k - 1] and [2k]. *)
Theorem get_hour_pillar_slots day_stem dt :
  0 <= hour dt <= 23 →
  ((get_hour_pillar day_stem dt).2 = 0 ↔ hour dt = 23 ∨ hour dt = 0)
  ∧ (∀ k, 1 <= k <= 11 →
       (get_hour_pillar day_stem dt).2 = k
       ↔ hour dt = 2 * k - 1 ∨ hour dt = 2 * k).
Proof.
  intros Hh. unfold get_hour_pillar. cbv zeta. cbn [snd].
  generalize dependent (hour dt). intros h Hh. split.
  - split; intros H; Z.div_mod_to_equations; lia.
  - intros k Hk. split; intros H; Z.div_mod_to_equations; lia.
Qed.

Lemma get_hour_pillar_slots_witness :
  (get_hour_pillar 3 (mk_datetime 2010 10 10 14 59 59 0)).2 = 7.
Proof.
  destruct (get_hour_pillar_slots 3 (mk_datetime 2010 10 10 14 59 59 0))
    as [_ H]; [simpl; lia|].
  apply (H 7); [lia|]. right. reflexivity.
Defined.

(** X12. The hour pillar depends on the day stem only through its remainder
    modulo 5: day stems five apart give the same hour pillar. *)
Theorem get_hour_pillar_day_stem_mod_5 day_stem day_stem' dt :
  day_stem mod 5 = day_stem' mod 5 →
  get_hour_pillar day_stem dt = get_hour_pillar day_stem' dt.
Proof.
  intros H. unfold get_hour_pillar. cbv zeta. f_equal.
  generalize (((hour dt + 1) / 2) mod 12). intros b.
  Z.div_mod_to_equations. lia.
Qed.

Lemma get_hour_pillar_day_stem_mod_5_witness :
  get_hour_pillar 2 (mk_datetime 2010 10 10 14 0 0 0)
  = get_hour_pillar 7 (mk_datetime 2010 10 10 14 0 0 0).
Proof.
  apply (get_hour_pillar_day_stem_mod_5 2 7). reflexivity.
Defined.

(** ** Further properties: the year pillar *)

(** X13. Where the table has no entry for either year, the year pillar
    repeats after 60 calendar years. *)
Theorem get_year_pillar_period_60 file y m d h mi s us :
  load_lunar_new_year file !! y = None →
  load_lunar_new_year file !! (y + 60) = None →
  get_year_pillar file (mk_datetime (y + 60) m d h mi s us)
  = get_year_pillar file (mk_datetime y m d h mi s us).
Proof.
  intros Hy Hy'. unfold get_year_pillar. cbv zeta. cbn [year month day].
  rewrite Hy, Hy'.
  destruct ((m <? 2) || ((m =? 2) && (d <? 4))); f_equal;
    Z.div_mod_to_equations; lia.
Qed.

Lemma get_year_pillar_period_60_witness :
  get_year_pillar None (mk_datetime 2044 1 1 0 0 0 0)
  = get_year_pillar None (mk_datetime 1984 1 1 0 0 0 0).
Proof.
  apply (get_year_pillar_period_60 None 1984 1 1 0 0 0 0); reflexivity.
Defined.

(** ** Further properties: boundaries and month stems *)



Lemma relative_index (i : nat) :
  (i < 12)%nat → ((2 + Z.of_nat i) mod 12 - 2) mod 12 = Z.of_nat i.
Proof. intros Hi. Z.div_mod_to_equations. lia. Qed.

(** X15. Along the twelve months of a BaZi year, from the branch of the
    first boundary on, the month stem starts at the Five Tigers stem of the
    year stem and goes up by one, modulo 10, with every month. *)
Theorem month_stem_increments year_stem :
  month_stem year_stem 2 = five_tigers_spec year_stem
  ∧ ∀ i : nat, (i < 11)%nat →
      month_stem year_stem ((2 + Z.of_nat (S i)) mod 12)
      = (month_stem year_stem ((2 + Z.of_nat i) mod 12) + 1) mod 10.
Proof.
  unfold month_stem. cbv zeta. rewrite five_tigers_lookup. split.
  - assert (0 <= five_tigers_spec year_stem < 10) as H.
    { unfold five_tigers_spec.
      repeat match goal with
      | |- context [if ?c then _ else _] => destruct c
      end; lia. }
    change ((2 - 2) mod 12) with 0. rewrite Z.add_0_r. by apply Z.mod_small.
  - intros i Hi. rewrite !relative_index by lia.
    generalize (five_tigers_spec year_stem). intros t.
    Z.div_mod_to_equations. lia.
Qed.

Lemma month_stem_increments_witness :
  month_stem 0 ((2 + Z.of_nat 10) mod 12) = 2
  ∧ month_stem 0 ((2 + Z.of_nat 11) mod 12) = 3.
Proof.
  destruct (month_stem_increments 0) as [_ H].
  split; [reflexivity|].
  rewrite (H 10%nat) by lia. reflexivity.
Defined.

(** ** Further properties: how the result is put together *)

Lemma py_index_lookup {A} (l : list A) i a :
  py_index l i = Ok a → 0 <= i → l !! Z.to_nat i = Some a.
Proof.
  unfold py_index. intros H Hi.
  destruct (Z.ltb_spec i 0); [lia|].
  destruct (_ && _); [|done].
  destruct (l !! Z.to_nat i); [|done]. by injection H as ->.
Qed.

Lemma make_pillar_fields label s b p :
  make_pillar label s b = Ok p →
  pillar_label p = label ∧ stem_index p = s ∧ branch_index p = b
  ∧ ∃ st br, py_index HEAVENLY_STEMS s = Ok st ∧ stem p = name st
             ∧ py_index EARTHLY_BRANCHES b = Ok br ∧ branch p = name br.
Proof.
  unfold make_pillar.
  destruct (py_index HEAVENLY_STEMS s) as [st|]; [|done].
  destruct (py_index EARTHLY_BRANCHES b) as [br|]; [|done].
  do 2 result_step. intros [= <-]. cbn. eauto 10.
Qed.

Lemma calculate_bazi_pillars_inv file dt r :
  calculate_bazi file dt = Ok r →
  ∃ m py pm pd ph,
    get_month_pillar (get_year_pillar file dt).1 (get_year_pillar file dt).2 dt
    = Ok m
    ∧ pillars r = [py; pm; pd; ph]
    ∧ make_pillar "年柱" (get_year_pillar file dt).1 (get_year_pillar file dt).2
      = Ok py
    ∧ make_pillar "月柱" m.1 m.2 = Ok pm
    ∧ make_pillar "日柱" (get_day_pillar dt).1 (get_day_pillar dt).2 = Ok pd
    ∧ make_pillar "时柱" (get_hour_pillar (get_day_pillar dt).1 dt).1
        (get_hour_pillar (get_day_pillar dt).1 dt).2 = Ok ph.
Proof.
  unfold calculate_bazi.
  destruct (get_year_pillar file dt) as [ys yb].
  destruct (get_day_pillar dt) as [ds db]. cbn [fst snd].
  destruct (get_month_pillar ys yb dt) as [[ms mb]|]; [|done]. result_step.
  destruct (get_hour_pillar ds dt) as [hs hb].
  destruct (make_pillar "年柱" ys yb) as [py|] eqn:Ey; [|done]. result_step.
  destruct (make_pillar "月柱" ms mb) as [pm|] eqn:Em; [|done]. result_step.
  destruct (make_pillar "日柱" ds db) as [pd|] eqn:Ed; [|done]. result_step.
  destruct (make_pillar "时柱" hs hb) as [ph|] eqn:Eh; [|done]. result_step.
  destruct (tally _ _) as [[[ec yi] ya]|]; [|done]. result_step.
  intros [= <-]. exists (ms, mb), py, pm, pd, ph. cbn [pillars fst snd]. done.
Qed.

(** X16. A result holds the pillars in the order year, month, day, hour;
    the month pillar is the one computed from the year pillar's stem and the
    hour pillar the one computed from the day pillar's stem, so inside every
    result the Five Tigers and Five Rats relations hold between the
    pillars. *)
Theorem calculate_bazi_pillars_linked file dt r :
  calculate_bazi file dt = Ok r →
  ∃ py pm pd ph,
    pillars r = [py; pm; pd; ph]
    ∧ (stem_index py, branch_index py) = get_year_pillar file dt
    ∧ get_month_pillar (stem_index py) (branch_index py) dt
      = Ok (stem_index pm, branch_index pm)
    ∧ (stem_index pd, branch_index pd) = get_day_pillar dt
    ∧ (stem_index ph, branch_index ph) = get_hour_pillar (stem_index pd) dt
    ∧ stem_index pm = month_stem (stem_index py) (branch_index pm)
    ∧ stem_index ph = (stem_index pd * 2 + branch_index ph) mod 10.
Proof.
  intros (m & py & pm & pd & ph & Hm & Hps & Hy & Hmo & Hd & Hh)%calculate_bazi_pillars_inv.
  apply make_pillar_fields in Hy as (_ & Sy & By & _).
  apply make_pillar_fields in Hmo as (_ & Sm & Bm & _).
  apply make_pillar_fields in Hd as (_ & Sd & Bd & _).
  apply make_pillar_fields in Hh as (_ & Sh & Bh & _).
  exists py, pm, pd, ph. rewrite Sy, By, Sm, Bm, Sd, Bd, Sh, Bh.
  destruct m as [ms mb]. cbn [fst snd] in *.
  split; [done|]. split; [by destruct (get_year_pillar file dt)|].
  split; [done|]. split; [by destruct (get_day_pillar dt)|].
  split; [by destruct (get_hour_pillar _ dt)|].
  split; [by apply get_month_pillar_inv in Hm as [_ ->]|].
  reflexivity.
Qed.

Lemma calculate_bazi_pillars_linked_witness :
  ∃ py pm pd ph,
    map (fun p => (stem_index p, branch_index p)) [py; pm; pd; ph]
    = [(6, 6); (4, 2); (2, 2); (4, 0)]
    ∧ stem_index pm = month_stem (stem_index py) (branch_index pm).
Proof.
  destruct (calculate_bazi_pillars_linked None (mk_datetime 1990 2 4 0 0 0 0) _
              ltac:(vm_compute; reflexivity))
    as (py & pm & pd & ph & Hps & Hy & Hm & Hd & Hh & Htig & _).
  exists py, pm, pd, ph. split; [|exact Htig].
  cbn [pillars] in Hps. injection Hps as <- <- <- <-. reflexivity.
Defined.

Lemma stem_names_distinct : NoDup (name <$> HEAVENLY_STEMS).
Proof. apply (bool_decide_unpack _). by vm_compute. Qed.

Lemma branch_names_distinct : NoDup (name <$> EARTHLY_BRANCHES).
Proof. apply (bool_decide_unpack _). by vm_compute. Qed.

Lemma make_pillar_names label s b p :
  make_pillar label s b = Ok p → 0 <= stem_index p → 0 <= branch_index p →
  (name <$> HEAVENLY_STEMS) !! Z.to_nat (stem_index p) = Some (stem p)
  ∧ (name <$> EARTHLY_BRANCHES) !! Z.to_nat (branch_index p) = Some (branch p)
  ∧ (∀ i : nat, (name <$> HEAVENLY_STEMS) !! i = Some (stem p) →
       Z.of_nat i = stem_index p)
  ∧ (∀ i : nat, (name <$> EARTHLY_BRANCHES) !! i = Some (branch p) →
       Z.of_nat i = branch_index p).
Proof.
  intros (_ & <- & <- & st & br & Hst & Hn & Hbr & Hm)%make_pillar_fields Hs Hb.
  assert ((name <$> HEAVENLY_STEMS) !! Z.to_nat (stem_index p) = Some (stem p))
    as Hstem.
  { by rewrite list_lookup_fmap, (py_index_lookup _ _ _ Hst Hs), Hn. }
  assert ((name <$> EARTHLY_BRANCHES) !! Z.to_nat (branch_index p)
          = Some (branch p)) as Hbranch.
  { by rewrite list_lookup_fmap, (py_index_lookup _ _ _ Hbr Hb), Hm. }
  split; [done|]. split; [done|]. split.
  - intros i Hi.
    pose proof (NoDup_lookup _ _ _ _ stem_names_distinct Hi Hstem). lia.
  - intros i Hi.
    pose proof (NoDup_lookup _ _ _ _ branch_names_distinct Hi Hbranch). lia.
Qed.

(** X17. The pillars of a result are labelled 年柱, 月柱, 日柱, 时柱 in this
    order, and each carries as [stem] and [branch] the names found at its
    stem index in [HEAVENLY_STEMS] and at its branch index in
    [EARTHLY_BRANCHES]; the names of each table are pairwise distinct, so a
    name gives back its index. *)
Theorem calculate_bazi_names file dt r :
  calculate_bazi file dt = Ok r →
  map pillar_label (pillars r) = ["年柱"; "月柱"; "日柱"; "时柱"]%string
  ∧ Forall (fun p =>
              (name <$> HEAVENLY_STEMS) !! Z.to_nat (stem_index p) = Some (stem p)
              ∧ (name <$> EARTHLY_BRANCHES) !! Z.to_nat (branch_index p)
                = Some (branch p)
              ∧ (∀ i : nat, (name <$> HEAVENLY_STEMS) !! i = Some (stem p) →
                   Z.of_nat i = stem_index p)
              ∧ (∀ i : nat, (name <$> EARTHLY_BRANCHES) !! i = Some (branch p) →
                   Z.of_nat i = branch_index p))
           (pillars r).
Proof.
  intros Hr. pose proof (calculate_bazi_pillars_ok _ _ _ Hr) as Hok.
  apply calculate_bazi_pillars_inv in Hr
    as (m & py & pm & pd & ph & _ & Hps & Hy & Hmo & Hd & Hh).
  rewrite Hps in *.
  apply Forall_cons in Hok as [[[Hys Hyb] _] Hok].
  apply Forall_cons in Hok as [[[Hms Hmb] _] Hok].
  apply Forall_cons in Hok as [[[Hds Hdb] _] Hok].
  apply Forall_cons in Hok as [[[Hhs Hhb] _] _].
  split.
  - pose proof (make_pillar_fields _ _ _ _ Hy) as (Ly & _).
    pose proof (make_pillar_fields _ _ _ _ Hmo) as (Lm & _).
    pose proof (make_pillar_fields _ _ _ _ Hd) as (Ld & _).
    pose proof (make_pillar_fields _ _ _ _ Hh) as (Lh & _).
    cbn [map]. by rewrite Ly, Lm, Ld, Lh.
  - apply Forall_cons_2; [eapply make_pillar_names; [exact Hy|lia|lia]|].
    apply Forall_cons_2; [eapply make_pillar_names; [exact Hmo|lia|lia]|].
    apply Forall_cons_2; [eapply make_pillar_names; [exact Hd|lia|lia]|].
    apply Forall_cons_2; [eapply make_pillar_names; [exact Hh|lia|lia]|].
    apply Forall_nil_2.
Qed.

Lemma calculate_bazi_names_witness :
  ∃ r, calculate_bazi None (mk_datetime 1990 2 4 0 0 0 0) = Ok r
       ∧ map stem (pillars r) = ["庚"; "戊"; "丙"; "戊"]%string
       ∧ map pillar_label (pillars r) = ["年柱"; "月柱"; "日柱"; "时柱"]%string.
Proof.
  eexists. split; [vm_compute; reflexivity|]. split; [reflexivity|].
  apply (calculate_bazi_names None (mk_datetime 1990 2 4 0 0 0 0)).
  vm_compute. reflexivity.
Defined.
